(** * dotbot-sync: the [sync] directive handler of [sync.py]

    A shallow embedding of the plugin's record processor, directory creator
    and sync operation, with the operating system (file system, user
    database, subprocess execution) as an explicit model that the code is
    run against, and the properties of the handler proved over it.

    Conventions of the embedding:
    - Python [str] values are [string] (the UTF-8 bytes of the text); no
      operation of the plugin splits a multi-byte character.
    - Python [int] values are [Z].
    - [None]-able strings ([owner], [group]) are [option string].
    - A key of a configuration dictionary is a field of type [option _],
      [None] when the key is absent, so that [d.get(key, default)] is
      [dict_get (key d) default].
    - Side effects are threaded through a state holding the file-system
      state of the model and the trace of the calls made so far; a Python
      exception is the outcome [Raise]. Only exceptions of class
      [Exception] are modelled (asynchronous interrupts are not). *)

From Stdlib Require Import List String Ascii ZArith Bool Lia.
From Stdlib Require Import Decimal DecimalString DecimalZ.
Import ListNotations.
Local Open Scope string_scope.
Local Open Scope Z_scope.

Set Implicit Arguments.

(* ===================================================================== *)
(** * Part I: the program                                                 *)
(* ===================================================================== *)

(** ** Strings *)

Module Str.

Definition backslash : ascii := "\"%char.
Definition slash : ascii := "/"%char.
Definition newline : ascii := "010"%char.

(** [s.replace(a, b)] for single characters [a] and [b]. *)
Fixpoint replace_char (a b : ascii) (s : string) : string :=
  match s with
  | EmptyString => EmptyString
  | String c t => String (if Ascii.eqb c a then b else c) (replace_char a b t)
  end.

(** [s.endswith(c)] for a single character [c]. *)
Fixpoint endswith_char (s : string) (c : ascii) : bool :=
  match s with
  | EmptyString => false
  | String x EmptyString => Ascii.eqb x c
  | String _ t => endswith_char t c
  end.

(** [s.startswith(c)] for a single character [c]. *)
Definition startswith_char (s : string) (c : ascii) : bool :=
  match s with
  | EmptyString => false
  | String x _ => Ascii.eqb x c
  end.

(** [c in s]. *)
Fixpoint mem_char (c : ascii) (s : string) : bool :=
  match s with
  | EmptyString => false
  | String x t => Ascii.eqb x c || mem_char c t
  end.

(** [bool(s)]: a string is truthy when it is not empty. *)
Definition nonempty (s : string) : bool :=
  match s with
  | EmptyString => false
  | String _ _ => true
  end.

Definition is_upper (c : ascii) : bool :=
  let n := nat_of_ascii c in (65 <=? n)%nat && (n <=? 90)%nat.

Definition is_lower (c : ascii) : bool :=
  let n := nat_of_ascii c in (97 <=? n)%nat && (n <=? 122)%nat.

(** The character class [[A-Za-z]]. *)
Definition is_ascii_letter (c : ascii) : bool := is_upper c || is_lower c.

(** [c.lower()] on one character of the class [[A-Za-z]]. *)
Definition lower (c : ascii) : ascii :=
  if is_upper c then ascii_of_nat (nat_of_ascii c + 32) else c.

End Str.

(** ** Python integers and their text *)

Module PyInt.

(** ['%s' % n] and [f'{n}'] for an [int]: the decimal digits, with a minus
    sign for a negative number. *)
Definition str (n : Z) : string := NilZero.string_of_int (Z.to_int n).

Definition octal_digit (c : ascii) : option Z :=
  let n := nat_of_ascii c in
  if (48 <=? n)%nat && (n <=? 55)%nat then Some (Z.of_nat (n - 48)) else None.

Fixpoint octal_digits (acc : Z) (s : string) : option Z :=
  match s with
  | EmptyString => Some acc
  | String c t =>
      match octal_digit c with
      | Some d => octal_digits (8 * acc + d) t
      | None => None
      end
  end.

(** [int(s, 8)] on the text of an integer (an optional minus sign and
    digits, which is all that [str] produces): [None] stands for the
    [ValueError] that Python raises on a digit 8 or 9. *)
Definition int_base8 (s : string) : option Z :=
  match s with
  | EmptyString => None
  | String "-" EmptyString => None
  | String "-" t => option_map Z.opp (octal_digits 0 t)
  | _ => octal_digits 0 s
  end.

End PyInt.

(** ** Path rewriting for cwRsync *)

(** The regular expression of [_fix_windows_path_for_cwrsync]: anchored at
    the start, group 1 is one character of [[A-Za-z]], then [:/], then
    group 2 is a greedy run of any characters, then [$]. It is matched with
    [re.match] and no flags: [.] is any character but a line feed, and [$]
    holds at the end of the string and just before a line feed that ends
    the string. *)
Module DriveRegex.

(** Group 2: the longest prefix free of line feeds, and what follows it. *)
Fixpoint dot_star (s : string) : string * string :=
  match s with
  | EmptyString => (EmptyString, EmptyString)
  | String c t =>
      if Ascii.eqb c Str.newline then (EmptyString, s)
      else let (m, r) := dot_star t in (String c m, r)
  end.

(** [$] at the position where [s] is what remains of the subject. *)
Definition at_end (s : string) : bool :=
  match s with
  | EmptyString => true
  | String c EmptyString => Ascii.eqb c Str.newline
  | String _ (String _ _) => false
  end.

(** [re.match(...)]: the groups 1 and 2 of a match, [None] for no match.
    A shorter group 2 never helps [$], since it is followed by a character
    that is not a line feed. *)
Definition match_drive (path : string) : option (ascii * string) :=
  match path with
  | String d (String ":" (String "/" tail)) =>
      if Str.is_ascii_letter d then
        let (rest, remainder) := dot_star tail in
        if at_end remainder then Some (d, rest) else None
      else None
  | _ => None
  end.

End DriveRegex.

(** [_fix_windows_path_for_cwrsync(path)], with the module constant
    [IS_WINDOWS] as a parameter. *)
Definition _fix_windows_path_for_cwrsync (IS_WINDOWS : bool) (path : string)
  : string :=
  if negb IS_WINDOWS then path
  else
    let path := Str.replace_char Str.backslash Str.slash path in
    match DriveRegex.match_drive path with
    | Some (drive_letter, rest) =>
        "/cygdrive/" ++ String (Str.lower drive_letter) ("/" ++ rest)
    | None => path
    end.

(** ** Configuration data *)

(** The keys that the defaults of the directive and an extended
    specification may carry. *)
Record config_dict : Type := {
  k_create : option bool;
  k_rsync : option string;
  k_options : option (list string);
  k_fmode : option Z;
  k_dmode : option Z;
  k_owner : option (option string);
  k_group : option (option string);
  k_stdout : option bool;
  k_stderr : option bool;
  k_path : option string
}.

(** The empty dictionary [{}]. *)
Definition empty_dict : config_dict :=
  {| k_create := None; k_rsync := None; k_options := None; k_fmode := None;
     k_dmode := None; k_owner := None; k_group := None; k_stdout := None;
     k_stderr := None; k_path := None |}.

(** [d.get(key, default)] *)
Definition dict_get {A : Type} (value : option A) (default : A) : A :=
  match value with
  | Some v => v
  | None => default
  end.

(** The value of a record: a bare source expression, or a dictionary
    ([isinstance(source, dict)]). *)
Inductive source_spec : Type :=
| Bare (paths_expression : string)
| Extended (source : config_dict).

(** [if owner]: neither [None] nor the empty string. *)
Definition truthy (name : option string) : bool :=
  match name with
  | Some s => Str.nonempty s
  | None => false
  end.

(** ** Exceptions, events and the operating system *)

Inductive exn : Type :=
| KeyError (key : string)
| ValueError (what : string)
| OSError (what : string)
| OtherException (class what : string).

Inductive outcome (A : Type) : Type :=
| Ok (a : A)
| Raise (e : exn).

Arguments Ok {A} a.
Arguments Raise {A} e.

(** What [stdout=] and [stderr=] of [subprocess.run] receive: [None], or a
    handle on the null device. *)
Inductive stream : Type :=
| Inherit
| DevNull.

Inductive level : Type := Lowinfo | Info | Warning | Error.

(** The log lines of the plugin, one constructor per format string, with
    the interpolated values as arguments. *)
Inductive message : Type :=
| Failed_to_chmod (path : string) (chmod : Z) (e : exn)
| Failed_to_chown (path : string) (uid gid : Z) (e : exn)
| Synchronizing_expression (paths_expression destination : string)
| All_synchronizations_done
| Some_synchronizations_failed
| Failed_to_create_directory (parent : string) (e : exn)
| Creating_directory (parent : string)
| Failed_to_sync_exit_code (source_abs dest_abs : string) (returncode : Z)
| Synchronized (source_abs dest_abs : string)
| Failed_to_sync_exception (source_abs dest_abs : string) (e : exn).

(** The calls that leave the plugin, in the order they are made. *)
Inductive event : Type :=
| Ev_log (l : level) (m : message)
| Ev_open_devnull (mode : string)
| Ev_close_devnull
| Ev_mkdir (path : string) (mode : Z)
| Ev_chmod (path : string) (mode : Z)
| Ev_chown (path : string) (uid gid : Z)
| Ev_run (cmd : list string) (cwd : string) (stdout stderr : stream).

(** The operating system as the plugin sees it, over a type [W] of
    file-system states. The environment and the user database are fixed for
    the time of a run; the file system changes with the calls. *)
Record OS (W : Type) : Type := {
  IS_WINDOWS : bool;
  os_path_expanduser : string -> string;
  os_path_expandvars : string -> string;
  os_path_join : string -> string -> string;
  os_path_abspath : string -> string;
  (** [pwd.getpwuid(os.getuid()).pw_name]; [None] for the [KeyError] *)
  current_pw_name : option string;
  (** [grp.getgrgid(os.getgid()).gr_name]; [None] for the [KeyError] *)
  current_gr_name : option string;
  (** [os.getlogin()]; [None] for the [OSError] *)
  os_getlogin : option string;
  (** [pwd.getpwnam(name).pw_uid]; [None] for the [KeyError] *)
  pwd_getpwnam : string -> option Z;
  (** [grp.getgrnam(name).gr_gid]; [None] for the [KeyError] *)
  grp_getgrnam : string -> option Z;
  glob : W -> string -> list string;
  os_path_exists : W -> string -> bool;
  os_path_isdir : W -> string -> bool;
  os_mkdir : string -> Z -> W -> option exn * W;
  os_chmod : string -> Z -> W -> option exn * W;
  os_chown : string -> Z -> Z -> W -> option exn * W;
  (** [subprocess.run(cmd, stdout=, stderr=, cwd=, text=True)]: the
      exception of a failed start, or the return code of the process *)
  subprocess_run :
    list string -> stream -> stream -> string -> W -> (exn + Z) * W
}.

(** [self._context]: the base directory and the defaults of the host. *)
Record context : Type := {
  base_directory : string;
  (** [self._context.defaults()], of which only the key ['sync'] is read *)
  defaults_sync : option config_dict
}.

Record state (W : Type) : Type := {
  world : W;
  trace : list event
}.

(** ** The monad of the plugin's effects *)

Definition M (W A : Type) : Type := state W -> outcome A * state W.

Definition ret {W A : Type} (a : A) : M W A := fun s => (Ok a, s).

Definition bind {W A B : Type} (c : M W A) (k : A -> M W B) : M W B :=
  fun s =>
    match c s with
    | (Ok a, s') => k a s'
    | (Raise e, s') => (Raise e, s')
    end.

Definition raise {W A : Type} (e : exn) : M W A := fun s => (Raise e, s).

Notation "x <- c ;; k" := (bind c (fun x => k))
  (at level 61, c at next level, right associativity).
Notation "c ;;; k" := (bind c (fun _ => k))
  (at level 61, right associativity).

(** [try: body  except Exception as e: handler(e)] *)
Definition try_except {W A : Type} (body : M W A) (handler : exn -> M W A)
  : M W A :=
  fun s =>
    match body s with
    | (Ok a, s') => (Ok a, s')
    | (Raise e, s') => handler e s'
    end.

(** [try: body  except Exception as e: handler(e)  else: orelse] *)
Definition try_except_else {W A B : Type} (body : M W A)
  (handler : exn -> M W B) (orelse : A -> M W B) : M W B :=
  fun s =>
    match body s with
    | (Ok a, s') => orelse a s'
    | (Raise e, s') => handler e s'
    end.

Definition emit {W : Type} (e : event) : M W unit :=
  fun s => (Ok tt, {| world := world s; trace := (trace s ++ [e])%list |}).

(** A call that reads the file system. *)
Definition read_world {W A : Type} (f : W -> A) : M W A :=
  fun s => (Ok (f (world s)), s).

(** A system call that fails with an exception or returns nothing. *)
Definition syscall {W : Type} (e : event) (f : W -> option exn * W)
  : M W unit :=
  fun s =>
    let (r, w') := f (world s) in
    let s' := {| world := w'; trace := (trace s ++ [e])%list |} in
    match r with
    | None => (Ok tt, s')
    | Some x => (Raise x, s')
    end.

(** A value that is there, or the given exception. *)
Definition or_raise {W A : Type} (v : option A) (e : exn) : M W A :=
  match v with
  | Some a => ret a
  | None => raise e
  end.

(** [for x in xs: acc = body(x, acc)] *)
Fixpoint for_each {W A B : Type} (xs : list A) (body : A -> B -> M W B)
  (acc : B) : M W B :=
  match xs with
  | [] => ret acc
  | x :: rest => acc' <- body x acc ;; for_each rest body acc'
  end.

(** Running [f] on every element in turn and collecting the results. *)
Fixpoint map_m {W A B : Type} (f : A -> M W B) (xs : list A) : M W (list B) :=
  match xs with
  | [] => ret []
  | x :: rest => b <- f x ;; bs <- map_m f rest ;; ret (b :: bs)
  end.

(** ** The plugin *)

(** The local variables of one iteration of [_process_records] once the
    configuration of the record is resolved ([v_x] for the variable [x]);
    [uid] and [gid] are computed from them next. *)
Record locals : Type := {
  v_destination : string;
  v_create : bool;
  v_rsync : string;
  v_options : list string;
  v_fmode : Z;
  v_dmode : Z;
  v_owner : option string;
  v_group : option string;
  v_stdout : stream;
  v_stderr : stream;
  v_paths_expression : string
}.

Section Sync.

Variable W : Type.
Variable os : OS W.
Variable ctx : context.

Definition log (l : level) (m : message) : M W unit := emit (Ev_log l m).

(** [open(os.devnull, mode)] *)
Definition open_devnull (mode : string) : M W stream :=
  emit (Ev_open_devnull mode) ;;; ret DevNull.

(** [Sync.expand_path(path, globs)] *)
Definition expand_path (path : string) (globs : bool) : M W (list string) :=
  let path := os_path_expanduser os path in
  let path := os_path_expandvars os path in
  if globs then read_world (fun w => glob os w path) else ret [path].

(** [(x,) = xs]: a [ValueError] unless [xs] has exactly one element. *)
Definition unpack_one (xs : list string) : M W string :=
  match xs with
  | [x] => ret x
  | [] => raise (ValueError "not enough values to unpack")
  | _ :: _ :: _ => raise (ValueError "too many values to unpack")
  end.

(** [Sync._chmodown(path, chmod, uid, gid)] *)
Definition _chmodown (path : string) (chmod uid gid : Z) : M W unit :=
  try_except
    (syscall (Ev_chmod path chmod) (os_chmod os path chmod))
    (fun e => log Warning (Failed_to_chmod path chmod e)) ;;;
  if negb (IS_WINDOWS os) then
    try_except
      (syscall (Ev_chown path uid gid) (os_chown os path uid gid))
      (fun e => log Warning (Failed_to_chown path uid gid e))
  else ret tt.

(** [Sync._create(path, dmode, uid, gid)] *)
Definition _create (path : string) (dmode uid gid : Z) : M W bool :=
  let success := true in
  let parent := os_path_abspath os (os_path_join os path "..") in
  parent_exists <- read_world (fun w => os_path_exists os w parent) ;;
  if negb parent_exists then
    try_except_else
      (syscall (Ev_mkdir parent dmode) (os_mkdir os parent dmode) ;;;
       _chmodown parent dmode uid gid)
      (fun e => log Warning (Failed_to_create_directory parent e) ;;;
                ret false)
      (fun _ => log Lowinfo (Creating_directory parent) ;;; ret success)
  else ret success.

(** The flags that [_sync] puts after the tool, before the empty strings
    are removed. *)
Definition sync_flags (dmode fmode : Z) (owner group : option string)
  (rsync : string) : list string :=
  [ rsync;
    "--update";
    "--recursive";
    "--owner";
    "--group";
    (if truthy owner && truthy group
     then "--chown=" ++ dict_get owner "" ++ ":" ++ dict_get group ""
     else "");
    "--chmod=D" ++ PyInt.str dmode ++ ",F" ++ PyInt.str fmode ].

(** [Sync._sync(source, destination, dmode, fmode, owner, group, rsync,
    options, stdout, stderr)] *)
Definition _sync (source destination : string) (dmode fmode : Z)
  (owner group : option string) (rsync : string) (options : list string)
  (stdout stderr : stream) : M W bool :=
  let source_abs := os_path_join os (base_directory ctx) source in
  let dest_abs := os_path_expanduser os destination in
  let source_abs :=
    if IS_WINDOWS os
    then _fix_windows_path_for_cwrsync (IS_WINDOWS os) source_abs
    else source_abs in
  let dest_abs :=
    if IS_WINDOWS os
    then _fix_windows_path_for_cwrsync (IS_WINDOWS os) dest_abs
    else dest_abs in
  let cmd := sync_flags dmode fmode owner group rsync in
  let cmd := filter Str.nonempty cmd in
  let original_source_full := os_path_join os (base_directory ctx) source in
  is_dir <- read_world (fun w => os_path_isdir os w original_source_full) ;;
  let source_abs :=
    if is_dir
    then if negb (Str.endswith_char source_abs Str.slash)
         then source_abs ++ "/" else source_abs
    else source_abs in
  let full_cmd := (cmd ++ options ++ [source_abs; dest_abs])%list in
  try_except
    (fun s =>
       let (r, w') :=
         subprocess_run os full_cmd stdout stderr (base_directory ctx)
           (world s) in
       let s' :=
         {| world := w';
            trace := (trace s ++
              [Ev_run full_cmd (base_directory ctx) stdout stderr])%list |}
       in
       match r with
       | inl e => (Raise e, s')
       | inr returncode =>
           (if negb (returncode =? 0)
            then log Warning
                   (Failed_to_sync_exit_code source_abs dest_abs returncode)
                 ;;; ret false
            else log Lowinfo (Synchronized source_abs dest_abs) ;;; ret true)
             s'
       end)
    (fun e =>
       log Warning (Failed_to_sync_exception source_abs dest_abs e) ;;;
       ret false).

(** [defaults = self._context.defaults().get('sync', {})] *)
Definition defaults : config_dict := dict_get (defaults_sync ctx) empty_dict.

(** The first part of the body of the loop of [_process_records]: from the
    expansion of the destination to the opening of the null device. *)
Definition resolve (destination : string) (source : source_spec)
  : M W locals :=
  expanded <- expand_path destination false ;;
  destination <- unpack_one expanded ;;
  let rsync := dict_get (k_rsync defaults) "rsync" in
  let options := dict_get (k_options defaults) ["--delete"; "--safe-links"] in
  let create := dict_get (k_create defaults) false in
  let fmode := dict_get (k_fmode defaults) 644 in
  let dmode := dict_get (k_dmode defaults) 755 in
  default_names <-
    (if negb (IS_WINDOWS os) then
       default_owner <- or_raise (current_pw_name os) (KeyError "getpwuid") ;;
       default_group <- or_raise (current_gr_name os) (KeyError "getgrgid") ;;
       ret (Some default_owner, Some default_group)
     else
       default_owner <- or_raise (os_getlogin os) (OSError "getlogin") ;;
       ret (Some default_owner, None)) ;;
  let default_owner : option string := fst default_names in
  let default_group : option string := snd default_names in
  let owner := dict_get (k_owner defaults) default_owner in
  let group := dict_get (k_group defaults) default_group in
  let stdout := Inherit in
  let stderr := Inherit in
  match source with
  | Extended source =>
      let create := dict_get (k_create source) create in
      let rsync := dict_get (k_rsync source) rsync in
      let options := dict_get (k_options source) options in
      let fmode := dict_get (k_fmode source) fmode in
      let dmode := dict_get (k_dmode source) dmode in
      let owner := dict_get (k_owner source) owner in
      let group := dict_get (k_group source) group in
      paths_expression <- or_raise (k_path source) (KeyError "path") ;;
      stdout <-
        (if negb (dict_get (k_stdout source)
                    (dict_get (k_stdout defaults) true))
         then open_devnull "w" else ret stdout) ;;
      stderr <-
        (if negb (dict_get (k_stderr source)
                    (dict_get (k_stderr defaults) true))
         then open_devnull "w" else ret stderr) ;;
      ret {| v_destination := destination; v_create := create;
             v_rsync := rsync; v_options := options; v_fmode := fmode;
             v_dmode := dmode; v_owner := owner; v_group := group;
             v_stdout := stdout; v_stderr := stderr;
             v_paths_expression := paths_expression |}
  | Bare source =>
      let paths_expression := source in
      ret {| v_destination := destination; v_create := create;
             v_rsync := rsync; v_options := options; v_fmode := fmode;
             v_dmode := dmode; v_owner := owner; v_group := group;
             v_stdout := stdout; v_stderr := stderr;
             v_paths_expression := paths_expression |}
  end.

(** The conversion of [owner] and [group] to [uid] and [gid]. *)
Definition resolve_ids (owner group : option string) : M W (Z * Z) :=
  if negb (IS_WINDOWS os) then
    uid <- (if truthy owner
            then or_raise (pwd_getpwnam os (dict_get owner ""))
                   (KeyError (dict_get owner ""))
            else ret (-1)) ;;
    gid <- (if truthy group
            then or_raise (grp_getgrnam os (dict_get group ""))
                   (KeyError (dict_get group ""))
            else ret (-1)) ;;
    ret (uid, gid)
  else ret (-1, -1).

(** [int('%s' % dmode, 8)] *)
Definition octal_mode (dmode : Z) : M W Z :=
  or_raise (PyInt.int_base8 (PyInt.str dmode))
    (ValueError "invalid literal for int() with base 8").

(** [if create: success &= self._create(destination, int('%s' % dmode, 8),
    uid, gid)] *)
Definition create_parent (l : locals) (uid gid : Z) (success : bool)
  : M W bool :=
  if v_create l then
    mode <- octal_mode (v_dmode l) ;;
    created <- _create (v_destination l) mode uid gid ;;
    ret (success && created)
  else ret success.

(** [for path_item in paths: success &= self._sync(path_item, ...)] *)
Definition sync_paths (l : locals) (paths : list string) (success : bool)
  : M W bool :=
  for_each paths
    (fun path_item success =>
       synced <- _sync path_item (v_destination l) (v_dmode l) (v_fmode l)
                   (v_owner l) (v_group l) (v_rsync l) (v_options l)
                   (v_stdout l) (v_stderr l) ;;
       ret (success && synced))
    success.

(** [if isinstance(handle, type(open(os.devnull))): handle.close()]: the
    test opens the null device once more to take its type. *)
Definition close_stream (handle : stream) : M W unit :=
  _ <- open_devnull "r" ;;
  match handle with
  | DevNull => emit Ev_close_devnull
  | Inherit => ret tt
  end.

(** The body of the loop of [_process_records]. *)
Definition process_record (record : string * source_spec) (success : bool)
  : M W bool :=
  l <- resolve (fst record) (snd record) ;;
  ids <- resolve_ids (v_owner l) (v_group l) ;;
  success <- create_parent l (fst ids) (snd ids) success ;;
  paths <- expand_path (v_paths_expression l) true ;;
  (if (1 <? List.length paths)%nat
   then log Lowinfo
          (Synchronizing_expression (v_paths_expression l)
             (v_destination l))
   else ret tt) ;;;
  success <- sync_paths l paths success ;;
  close_stream (v_stdout l) ;;;
  close_stream (v_stderr l) ;;;
  ret success.

(** [Sync._process_records(records)], on the items of [records] in the
    order of iteration. *)
Definition _process_records (records : list (string * source_spec))
  : M W bool :=
  let success := true in
  success <- for_each records process_record success ;;
  (if success
   then log Info All_synchronizations_done
   else log Error Some_synchronizations_failed) ;;;
  ret success.

(** [Sync.can_handle(directive)] *)
Definition can_handle (directive : string) : bool :=
  String.eqb directive "sync".

(** [Sync.handle(directive, data)] *)
Definition handle (directive : string) (data : list (string * source_spec))
  : M W bool :=
  if negb (String.eqb directive "sync")
  then raise (ValueError ("Sync cannot handle directive " ++ directive))
  else _process_records data.

End Sync.

Arguments _sync {W} os ctx source destination dmode fmode owner group rsync
  options stdout stderr _.
Arguments _create {W} os path dmode uid gid _.
Arguments _chmodown {W} os path chmod uid gid _.
Arguments _process_records {W} os ctx records _.
Arguments process_record {W} os ctx record success _.
Arguments resolve {W} os ctx destination source _.
Arguments resolve_ids {W} os owner group _.
Arguments create_parent {W} os l uid gid success _.
Arguments sync_paths {W} os ctx l paths success _.
Arguments expand_path {W} os path globs _.

(* ===================================================================== *)
(** * Part II: what the specification says, in its own words             *)
(* ===================================================================== *)

(** The source path that the sync operation hands to the tool: resolved
    against the base directory, rewritten for the platform, and with a
    trailing separator when the original path is a directory. *)
Definition normalized_source {W : Type} (os : OS W) (ctx : context) (w : W)
  (source : string) : string :=
  let original := os_path_join os (base_directory ctx) source in
  let rewritten := _fix_windows_path_for_cwrsync (IS_WINDOWS os) original in
  if os_path_isdir os w original
  then if Str.endswith_char rewritten Str.slash then rewritten
       else rewritten ++ "/"
  else rewritten.

(** The destination path that the sync operation hands to the tool: with
    the home directory expanded, rewritten for the platform. *)
Definition normalized_destination {W : Type} (os : OS W)
  (destination : string) : string :=
  _fix_windows_path_for_cwrsync (IS_WINDOWS os)
    (os_path_expanduser os destination).

(** The command line that [_sync] runs in the file system [w]: its flags
    with the empty strings removed, the options, and the two paths. *)
Definition command_line {W : Type} (os : OS W) (ctx : context) (w : W)
  (source destination : string) (dmode fmode : Z)
  (owner group : option string) (rsync : string) (options : list string)
  : list string :=
  (filter Str.nonempty (sync_flags dmode fmode owner group rsync)
     ++ options
     ++ [normalized_source os ctx w source;
         normalized_destination os destination])%list.

(** The chown flag: there when both names are non-empty. *)
Definition chown_flag (owner group : option string) : list string :=
  match owner, group with
  | Some o, Some g =>
      if Str.nonempty o && Str.nonempty g
      then ["--chown=" ++ o ++ ":" ++ g] else []
  | _, _ => []
  end.

(** The chmod flag: the directory mode and the file mode as written. *)
Definition chmod_flag (dmode fmode : Z) : string :=
  "--chmod=D" ++ PyInt.str dmode ++ ",F" ++ PyInt.str fmode.

(** The argument vector of the external tool invocation. *)
Definition expected_argv (tool : string) (owner group : option string)
  (dmode fmode : Z) (extra_options : list string) (source dest : string)
  : list string :=
  ([tool; "--update"; "--recursive"; "--owner"; "--group"]
     ++ chown_flag owner group
     ++ [chmod_flag dmode fmode]
     ++ extra_options
     ++ [source; dest])%list.

(** The warning that follows a failed call, if it failed. *)
Definition warning_of (failure : option exn) (m : exn -> message)
  : list event :=
  match failure with
  | Some e => [Ev_log Warning (m e)]
  | None => []
  end.

(** What setting mode and ownership on [path] does from the file system
    [w]: chmod, with a warning when it fails; then, off Windows and
    whatever chmod answered, chown, with a warning when it fails. *)
Definition mode_and_owner_steps {W : Type} (os : OS W) (path : string)
  (mode uid gid : Z) (w : W) : list event * W :=
  let (chmod_failure, w1) := os_chmod os path mode w in
  let chmod_steps :=
    Ev_chmod path mode :: warning_of chmod_failure (Failed_to_chmod path mode)
  in
  if IS_WINDOWS os then (chmod_steps, w1)
  else
    let (chown_failure, w2) := os_chown os path uid gid w1 in
    ((chmod_steps
        ++ Ev_chown path uid gid
           :: warning_of chown_failure (Failed_to_chown path uid gid))%list,
     w2).

(** The value of a sequence of decimal digits read in the given base. *)
Fixpoint digits_value (base : Z) (d : uint) (acc : Z) : Z :=
  match d with
  | Nil => acc
  | D0 d => digits_value base d (base * acc)
  | D1 d => digits_value base d (base * acc + 1)
  | D2 d => digits_value base d (base * acc + 2)
  | D3 d => digits_value base d (base * acc + 3)
  | D4 d => digits_value base d (base * acc + 4)
  | D5 d => digits_value base d (base * acc + 5)
  | D6 d => digits_value base d (base * acc + 6)
  | D7 d => digits_value base d (base * acc + 7)
  | D8 d => digits_value base d (base * acc + 8)
  | D9 d => digits_value base d (base * acc + 9)
  end.

(** The decimal digits of a non-negative mode value reinterpreted as
    octal: 755 is read as 0o755. *)
Definition octal_reading (n : Z) : Z :=
  match Z.to_int n with
  | Pos d => digits_value 8 d 0
  | Neg d => - digits_value 8 d 0
  end.

Fixpoint only_octal_digits (s : string) : bool :=
  match s with
  | EmptyString => true
  | String c t =>
      match PyInt.octal_digit c with
      | Some _ => only_octal_digits t
      | None => false
      end
  end.

(** The success booleans of all the invocations of one record, each one
    attempted whatever the others returned: the directory creation when
    [create] is set, then one sync operation per matched source path. *)
Definition record_attempts {W : Type} (os : OS W) (ctx : context)
  (record : string * source_spec) : M W (list bool) :=
  l <- resolve os ctx (fst record) (snd record) ;;
  ids <- resolve_ids os (v_owner l) (v_group l) ;;
  created <-
    (if v_create l then
       mode <- octal_mode (v_dmode l) ;;
       b <- _create os (v_destination l) mode (fst ids) (snd ids) ;;
       ret [b]
     else ret []) ;;
  paths <- expand_path os (v_paths_expression l) true ;;
  (if (1 <? List.length paths)%nat
   then log Lowinfo
          (Synchronizing_expression (v_paths_expression l)
             (v_destination l))
   else ret tt) ;;;
  synced <-
    map_m (fun path_item =>
             _sync os ctx path_item (v_destination l) (v_dmode l) (v_fmode l)
               (v_owner l) (v_group l) (v_rsync l) (v_options l)
               (v_stdout l) (v_stderr l))
      paths ;;
  close_stream (v_stdout l) ;;;
  close_stream (v_stderr l) ;;;
  ret (created ++ synced)%list.

(** The success booleans of a whole run, record after record. *)
Definition all_attempts {W : Type} (os : OS W) (ctx : context)
  (records : list (string * source_spec)) : M W (list bool) :=
  per_record <- map_m (record_attempts os ctx) records ;;
  ret (List.concat per_record).

(** The aggregate log line and result of a run, from its booleans. *)
Definition report {W : Type} (attempts : list bool) : M W bool :=
  let success := forallb (fun b => b) attempts in
  (if success
   then log Info All_synchronizations_done
   else log Error Some_synchronizations_failed) ;;;
  ret success.

(** The tool invocations of a trace. *)
Definition runs (t : list event) : list event :=
  filter (fun e => match e with Ev_run _ _ _ _ => true | _ => false end) t.

(** The directory creations of a trace. *)
Definition mkdirs (t : list event) : list event :=
  filter (fun e => match e with Ev_mkdir _ _ => true | _ => false end) t.

(** ** Readings of a trace *)

(** The log lines that report a failed invocation: a directory that could
    not be created, a tool that exited with a non-zero status or could not
    be run. A failed chmod or chown is a warning that is no failure. *)
Definition is_failure (e : event) : bool :=
  match e with
  | Ev_log _ (Failed_to_create_directory _ _) => true
  | Ev_log _ (Failed_to_sync_exit_code _ _ _) => true
  | Ev_log _ (Failed_to_sync_exception _ _ _) => true
  | _ => false
  end.

Definition no_failure (t : list event) : bool :=
  forallb (fun e => negb (is_failure e)) t.

(** The openings of the null device in the given mode. *)
Definition is_open (mode : string) (e : event) : bool :=
  match e with
  | Ev_open_devnull m => String.eqb m mode
  | _ => false
  end.

Definition is_close (e : event) : bool :=
  match e with
  | Ev_close_devnull => true
  | _ => false
  end.

Definition is_handle_event (e : event) : bool :=
  match e with
  | Ev_open_devnull _ => true
  | Ev_close_devnull => true
  | _ => false
  end.

Definition handle_events (t : list event) : list event :=
  filter is_handle_event t.

Definition count (p : event -> bool) (t : list event) : nat :=
  List.length (filter p t).

(** The changes of ownership of a trace. *)
Definition chowns (t : list event) : list event :=
  filter (fun e => match e with Ev_chown _ _ _ => true | _ => false end) t.

(** The changes of mode of a trace. *)
Definition chmods (t : list event) : list event :=
  filter (fun e => match e with Ev_chmod _ _ => true | _ => false end) t.

(** The runs of the tool on the matched paths of a record with the
    configuration [l], from the file system [w]: one per path, in order,
    each command line built in the file system that the run before it
    left; and the file system after the last one. *)
Fixpoint runs_from {W : Type} (os : OS W) (ctx : context) (l : locals)
  (paths : list string) (w : W) : list event * W :=
  match paths with
  | [] => ([], w)
  | path_item :: rest =>
      let cmd :=
        command_line os ctx w path_item (v_destination l) (v_dmode l)
          (v_fmode l) (v_owner l) (v_group l) (v_rsync l) (v_options l) in
      let w' :=
        snd (subprocess_run os cmd (v_stdout l) (v_stderr l)
               (base_directory ctx) w) in
      let (later, w'') := runs_from os ctx l rest w' in
      (Ev_run cmd (base_directory ctx) (v_stdout l) (v_stderr l) :: later,
       w'')
  end.

(** The dictionary of a record: empty for a bare source expression. *)
Definition record_dict (source : source_spec) : config_dict :=
  match source with
  | Extended r => r
  | Bare _ => empty_dict
  end.

(** What the resolution of a record opens for a stream. *)
Definition opened (handle : stream) : list event :=
  match handle with
  | DevNull => [Ev_open_devnull "w"]
  | Inherit => []
  end.

(** What the end of a record does for a stream. *)
Definition closing (handle : stream) : list event :=
  Ev_open_devnull "r"
  :: match handle with
     | DevNull => [Ev_close_devnull]
     | Inherit => []
     end.

(** The tool name as the vector holds it: dropped when empty. *)
Definition tool_slot (tool : string) : list string :=
  if Str.nonempty tool then [tool] else [].

(* ===================================================================== *)
(** * Part III: a small POSIX system to run the plugin on                *)
(* ===================================================================== *)

Module Demo.

(** The file system: the directories and the files that exist, and the
    files that the tool cannot read. *)
Record fs : Type := {
  dirs : list string;
  files : list string;
  unreadable : list string
}.

Definition mem (x : string) (xs : list string) : bool :=
  existsb (String.eqb x) xs.

(** [posixpath.join(a, b)] *)
Definition join (a b : string) : string :=
  if Str.startswith_char b Str.slash then b
  else if negb (Str.nonempty a) || Str.endswith_char a Str.slash then a ++ b
  else a ++ "/" ++ b.

Fixpoint split_slash (s : string) : list string :=
  match s with
  | EmptyString => [EmptyString]
  | String c t =>
      if Ascii.eqb c Str.slash then EmptyString :: split_slash t
      else match split_slash t with
           | h :: r => String c h :: r
           | [] => [String c EmptyString]
           end
  end.

Definition normalize (components : list string) : list string :=
  fold_left
    (fun stack c =>
       if String.eqb c "" || String.eqb c "." then stack
       else if String.eqb c ".." then removelast stack
       else (stack ++ [c])%list)
    components [].

(** [posixpath.abspath(p)] with the current directory [/repo]. *)
Definition abspath (p : string) : string :=
  let p := if Str.startswith_char p Str.slash then p else "/repo/" ++ p in
  "/" ++ String.concat "/" (normalize (split_slash p)).

(** [~] is [/home/alice]; no other user is looked up. *)
Definition expanduser (p : string) : string :=
  match p with
  | String "~" EmptyString => "/home/alice"
  | String "~" (String "/" rest) => "/home/alice/" ++ rest
  | _ => p
  end.

(** The matches of the two patterns in use; any other expression matches
    itself when it exists. *)
Definition matches (w : fs) (pattern : string) : list string :=
  if String.eqb pattern "conf/*.txt" then ["conf/a.txt"; "conf/b.txt"]
  else if String.eqb pattern "/srv/dest/*" then []
  else if mem (abspath pattern) (dirs w) || mem (abspath pattern) (files w)
       then [pattern] else [].

Definition mkdir (path : string) (mode : Z) (w : fs) : option exn * fs :=
  if mem path (dirs w) || mem path (files w)
  then (Some (OSError "File exists"), w)
  else if mem (abspath (join path "..")) (dirs w)
  then (None, {| dirs := path :: dirs w; files := files w;
                 unreadable := unreadable w |})
  else (Some (OSError "No such file or directory"), w).

Definition chmod (path : string) (mode : Z) (w : fs) : option exn * fs :=
  if mem path (dirs w) || mem path (files w) then (None, w)
  else (Some (OSError "No such file or directory"), w).

(** Only the owner 1000 may be given, as by an unprivileged user. *)
Definition chown (path : string) (uid gid : Z) (w : fs) : option exn * fs :=
  if (uid =? -1) || (uid =? 1000) then (None, w)
  else (Some (OSError "Operation not permitted"), w).

(** The tool is [rsync]; it exits with 23 on an unreadable source and with
    0 otherwise, and anything else cannot be started. *)
Definition run (cmd : list string) (stdout stderr : stream) (cwd : string)
  (w : fs) : (exn + Z) * fs :=
  match cmd with
  | tool :: _ =>
      if String.eqb tool "rsync" then
        if mem (nth (List.length cmd - 2) cmd "") (unreadable w)
        then (inr 23, w) else (inr 0, w)
      else (inl (OSError "No such file or directory"), w)
  | [] => (inl (OtherException "IndexError" "list index out of range"), w)
  end.

Definition getpwnam (name : string) : option Z :=
  if String.eqb name "alice" then Some 1000
  else if String.eqb name "root" then Some 0 else None.

Definition getgrnam (name : string) : option Z :=
  if String.eqb name "staff" then Some 50
  else if String.eqb name "root" then Some 0 else None.

Definition posix : OS fs := {|
  IS_WINDOWS := false;
  os_path_expanduser := expanduser;
  os_path_expandvars := fun p => p;
  os_path_join := join;
  os_path_abspath := abspath;
  current_pw_name := Some "alice";
  current_gr_name := Some "staff";
  os_getlogin := Some "alice";
  pwd_getpwnam := getpwnam;
  grp_getgrnam := getgrnam;
  glob := matches;
  os_path_exists := fun w p => mem p (dirs w) || mem p (files w);
  os_path_isdir := fun w p => mem p (dirs w);
  os_mkdir := mkdir;
  os_chmod := chmod;
  os_chown := chown;
  subprocess_run := run
|}.

Definition disk : fs := {|
  dirs := ["/"; "/repo"; "/repo/conf"; "/repo/vim"; "/home"; "/home/alice";
           "/srv"];
  files := ["/repo/conf/a.txt"; "/repo/conf/b.txt"; "/repo/bashrc"];
  unreadable := ["/repo/conf/a.txt"]
|}.

Definition start : state fs := {| world := disk; trace := [] |}.

Definition plain : context :=
  {| base_directory := "/repo"; defaults_sync := None |}.

(** [defaults: sync: {stdout: false}] *)
Definition quiet : context :=
  {| base_directory := "/repo";
     defaults_sync :=
       Some {| k_create := None; k_rsync := None; k_options := None;
               k_fmode := None; k_dmode := None; k_owner := None;
               k_group := None; k_stdout := Some false; k_stderr := None;
               k_path := None |} |}.

(** An extended specification with the given path and nothing else. *)
Definition only_path (p : string) : config_dict :=
  {| k_create := None; k_rsync := None; k_options := None; k_fmode := None;
     k_dmode := None; k_owner := None; k_group := None; k_stdout := None;
     k_stderr := None; k_path := Some p |}.

(** The local variables of a record that syncs [nvim] to
    [~/.config/nvim] with [create] set, under no defaults. *)
Definition nvim_locals : locals :=
  {| v_destination := "/home/alice/.config/nvim"; v_create := true;
     v_rsync := "rsync"; v_options := ["--delete"; "--safe-links"];
     v_fmode := 644; v_dmode := 755; v_owner := Some "alice";
     v_group := Some "staff"; v_stdout := Inherit; v_stderr := Inherit;
     v_paths_expression := "nvim" |}.

(** An extended specification that gives the files to a user the system
    does not know. *)
Definition for_mallory : config_dict :=
  {| k_create := None; k_rsync := None; k_options := None; k_fmode := None;
     k_dmode := None; k_owner := Some (Some "mallory"); k_group := None;
     k_stdout := None; k_stderr := None; k_path := Some "vim" |}.


(** The local variables of a record [~/x: nothing-here], whose source
    matches no file. *)
Definition unmatched_locals : locals :=
  {| v_destination := "/home/alice/x"; v_create := false;
     v_rsync := "rsync"; v_options := ["--delete"; "--safe-links"];
     v_fmode := 644; v_dmode := 755; v_owner := Some "alice";
     v_group := Some "staff"; v_stdout := Inherit; v_stderr := Inherit;
     v_paths_expression := "nothing-here" |}.

(** A directory, then a pattern with one unreadable file among two. *)
Definition two_records : list (string * source_spec) :=
  [("~/.vim", Bare "vim"); ("~/docs/notes", Bare "conf/*.txt")].

(** A Windows host with cwRsync: paths are joined with a backslash, the
    home directory is [C:\Users\alice], and there is no user database. *)
Definition windows : OS fs := {|
  IS_WINDOWS := true;
  os_path_expanduser :=
    fun p => match p with
             | String "~" rest => "C:\Users\alice" ++ rest
             | _ => p
             end;
  os_path_expandvars := fun p => p;
  os_path_join := fun a b => a ++ String Str.backslash b;
  os_path_abspath := fun p => p;
  current_pw_name := None;
  current_gr_name := None;
  os_getlogin := Some "alice";
  pwd_getpwnam := fun _ => None;
  grp_getgrnam := fun _ => None;
  glob :=
    fun w p =>
      let full := "C:\repo" ++ String Str.backslash p in
      if mem full (files w) || mem full (dirs w) then [p] else [];
  os_path_exists := fun w p => mem p (dirs w) || mem p (files w);
  os_path_isdir := fun w p => mem p (dirs w);
  os_mkdir := mkdir;
  os_chmod := chmod;
  os_chown := chown;
  subprocess_run := run
|}.

Definition windows_disk : fs := {|
  dirs := ["C:\repo"; "C:\repo\vim"; "C:\Users\alice"];
  files := ["C:\repo\vimrc"];
  unreadable := []
|}.

Definition windows_start : state fs :=
  {| world := windows_disk; trace := [] |}.

Definition windows_plain : context :=
  {| base_directory := "C:\repo"; defaults_sync := None |}.

(** The local variables of a record [~\vimfiles: vim] on that host. *)
Definition windows_locals : locals :=
  {| v_destination := "C:\Users\alice\vimfiles"; v_create := false;
     v_rsync := "rsync"; v_options := ["--delete"; "--safe-links"];
     v_fmode := 644; v_dmode := 755; v_owner := Some "alice";
     v_group := None; v_stdout := Inherit; v_stderr := Inherit;
     v_paths_expression := "vim" |}.

(** An extended specification that sets the file mode and nothing else. *)
Definition private_bashrc : config_dict :=
  {| k_create := None; k_rsync := None; k_options := None;
     k_fmode := Some 600; k_dmode := None; k_owner := None; k_group := None;
     k_stdout := None; k_stderr := None; k_path := Some "bashrc" |}.

(** What [private_bashrc] resolves to under the defaults [quiet]. *)
Definition private_bashrc_locals : locals :=
  {| v_destination := "/home/alice/.bashrc"; v_create := false;
     v_rsync := "rsync"; v_options := ["--delete"; "--safe-links"];
     v_fmode := 600; v_dmode := 755; v_owner := Some "alice";
     v_group := Some "staff"; v_stdout := DevNull; v_stderr := Inherit;
     v_paths_expression := "bashrc" |}.

End Demo.

(* ===================================================================== *)
(** * Part IV: properties                                                 *)
(* ===================================================================== *)

(** ** Running the monad *)

Lemma bind_ok {W A B : Type} (c : M W A) (s s' : state W) (a : A)
  (H : c s = (Ok a, s')) (k : A -> M W B) :
  bind c k s = k a s'.
Proof. unfold bind. rewrite H. reflexivity. Qed.

Lemma bind_raise {W A B : Type} (c : M W A) (s s' : state W) (e : exn)
  (H : c s = (Raise e, s')) (k : A -> M W B) :
  bind c k s = (Raise e, s').
Proof. unfold bind. rewrite H. reflexivity. Qed.

Arguments bind_ok {W A B} [c s s' a] H k.
Arguments bind_raise {W A B} [c s s' e] H k.

Lemma runs_app (a b : list event) : runs (a ++ b) = (runs a ++ runs b)%list.
Proof. apply filter_app. Qed.

(** ** Strings and the path rewriting *)

Lemma endswith_char_app (s : string) (c : ascii) :
  Str.endswith_char (s ++ String c EmptyString) c = true.
Proof.
  induction s as [|x t IH]; simpl.
  - apply Ascii.eqb_refl.
  - destruct t; simpl in *; exact IH.
Qed.



Lemma fix_path_not_windows (path : string) :
  _fix_windows_path_for_cwrsync false path = path.
Proof. reflexivity. Qed.

Lemma fix_path_guarded (win : bool) (path : string) :
  (if win then _fix_windows_path_for_cwrsync win path else path)
  = _fix_windows_path_for_cwrsync win path.
Proof. destruct win; reflexivity. Qed.




(** ** The sync operation *)

Section SyncOperation.

Variable W : Type.
Variable os : OS W.
Variable ctx : context.

(** The flags once the empty strings are removed, for a tool with a name. *)
Lemma flags_filtered (dmode fmode : Z) (owner group : option string)
  (rsync : string) :
  Str.nonempty rsync = true ->
  filter Str.nonempty (sync_flags dmode fmode owner group rsync)
  = ([rsync; "--update"; "--recursive"; "--owner"; "--group"]
       ++ chown_flag owner group ++ [chmod_flag dmode fmode])%list.
Proof.
  intros Hr. unfold sync_flags, chown_flag, chmod_flag, truthy.
  cbn [filter]. rewrite Hr.
  destruct owner as [o|], group as [g|]; cbn;
    try destruct (Str.nonempty o); try destruct (Str.nonempty g);
    reflexivity.
Qed.

(** With no tool name the filter drops the first element as well. *)
Lemma flags_filtered_no_tool (dmode fmode : Z) (owner group : option string) :
  filter Str.nonempty (sync_flags dmode fmode owner group "")
  = (["--update"; "--recursive"; "--owner"; "--group"]
       ++ chown_flag owner group ++ [chmod_flag dmode fmode])%list.
Proof.
  unfold sync_flags, chown_flag, chmod_flag, truthy. cbn [filter].
  destruct owner as [o|], group as [g|]; cbn;
    try destruct (Str.nonempty o); try destruct (Str.nonempty g);
    reflexivity.
Qed.

(** What [_sync] does, by the answer of the subprocess call. *)
Lemma sync_outcome (source destination : string) (dmode fmode : Z)
  (owner group : option string) (rsync : string) (options : list string)
  (stdout stderr : stream) (s : state W) :
  let src := normalized_source os ctx (world s) source in
  let dst := normalized_destination os destination in
  let cmd := command_line os ctx (world s) source destination dmode fmode
               owner group rsync options in
  let ran := Ev_run cmd (base_directory ctx) stdout stderr in
  _sync os ctx source destination dmode fmode owner group rsync options
    stdout stderr s
  = match subprocess_run os cmd stdout stderr (base_directory ctx) (world s)
    with
    | (inl e, w') =>
        (Ok false,
         {| world := w';
            trace := trace s
                     ++ [ran;
                         Ev_log Warning (Failed_to_sync_exception src dst e)]
         |})
    | (inr returncode, w') =>
        if returncode =? 0
        then (Ok true,
              {| world := w';
                 trace := trace s
                          ++ [ran; Ev_log Lowinfo (Synchronized src dst)] |})
        else (Ok false,
              {| world := w';
                 trace := trace s
                          ++ [ran;
                              Ev_log Warning
                                (Failed_to_sync_exit_code src dst returncode)]
              |})
    end%list.
Proof.
  cbv zeta.
  unfold _sync, command_line, normalized_source, normalized_destination.
  rewrite !fix_path_guarded.
  unfold bind at 1. unfold read_world at 1. cbv beta iota.
  set (original := os_path_join os (base_directory ctx) source).
  set (rewritten :=
         _fix_windows_path_for_cwrsync (IS_WINDOWS os) original).
  assert (Hsrc :
    (if os_path_isdir os (world s) original
     then if negb (Str.endswith_char rewritten Str.slash)
          then rewritten ++ "/" else rewritten
     else rewritten)
    = (if os_path_isdir os (world s) original
       then if Str.endswith_char rewritten Str.slash then rewritten
            else rewritten ++ "/"
       else rewritten)).
  { destruct (os_path_isdir os (world s) original); [|reflexivity].
    destruct (Str.endswith_char rewritten Str.slash); reflexivity. }
  rewrite Hsrc. unfold try_except.
  destruct (subprocess_run os _ stdout stderr (base_directory ctx) (world s))
    as [[e|returncode] w'].
  - unfold bind, log, emit, ret. cbn. rewrite <- app_assoc. reflexivity.
  - destruct (returncode =? 0); unfold bind, log, emit, ret; cbn;
      rewrite <- app_assoc; reflexivity.
Qed.

Lemma nonempty_iff (x : string) : Str.nonempty x = true <-> x <> "".
Proof.
  destruct x; simpl; split; intros H; try reflexivity; try discriminate.
  contradiction H; reflexivity.
Qed.

Lemma normalized_source_cases (w : W) (source : string) :
  let original := os_path_join os (base_directory ctx) source in
  let rewritten := _fix_windows_path_for_cwrsync (IS_WINDOWS os) original in
  (os_path_isdir os w original = true ->
   Str.endswith_char (normalized_source os ctx w source) Str.slash = true
   /\ (normalized_source os ctx w source = rewritten
       \/ normalized_source os ctx w source = rewritten ++ "/"))
  /\ (os_path_isdir os w original = false ->
      normalized_source os ctx w source = rewritten).
Proof.
  cbv zeta. unfold normalized_source.
  set (rewritten := _fix_windows_path_for_cwrsync (IS_WINDOWS os) _).
  split; intros Hdir; rewrite Hdir.
  - destruct (Str.endswith_char rewritten Str.slash) eqn:Hend.
    + split; [exact Hend | left; reflexivity].
    + split; [apply endswith_char_app | right; reflexivity].
  - reflexivity.
Qed.

(** C1, amended: for a tool with a non-empty name, the sync operation runs
    exactly the vector [tool, --update, --recursive, --owner, --group], the
    chown flag if and only if owner and group are both non-empty, the chmod
    flag, the extra options in order, the normalized source and the
    normalized destination, in the base directory of the configuration. *)
Theorem sync_argument_vector (source destination : string) (dmode fmode : Z)
  (owner group : option string) (rsync : string) (options : list string)
  (stdout stderr : stream) (s : state W) (Htool : rsync <> "") :
  exists (success : bool) (w' : W) (line : event),
    _sync os ctx source destination dmode fmode owner group rsync options
      stdout stderr s
    = (Ok success,
       {| world := w';
          trace :=
            trace s ++
            [Ev_run
               (expected_argv rsync owner group dmode fmode options
                  (normalized_source os ctx (world s) source)
                  (normalized_destination os destination))
               (base_directory ctx) stdout stderr;
             line] |})%list.
Proof.
  apply nonempty_iff in Htool.
  rewrite sync_outcome. cbv zeta. unfold command_line, expected_argv.
  rewrite (flags_filtered dmode fmode owner group rsync Htool).
  rewrite <- !app_assoc.
  destruct (subprocess_run os _ stdout stderr (base_directory ctx) (world s))
    as [[e|returncode] w'].
  - eexists _, _, _. reflexivity.
  - destruct (returncode =? 0); eexists _, _, _; reflexivity.
Qed.

(** C6: the sync operation never raises; it returns true exactly when the
    subprocess exits with status zero, and after a non-zero status or an
    exception of the invocation it logs a warning and returns false. *)
Theorem sync_success_is_exit_status_zero (source destination : string)
  (dmode fmode : Z) (owner group : option string) (rsync : string)
  (options : list string) (stdout stderr : stream) (s : state W) :
  let src := normalized_source os ctx (world s) source in
  let dst := normalized_destination os destination in
  let cmd := command_line os ctx (world s) source destination dmode fmode
               owner group rsync options in
  let answer :=
    fst (subprocess_run os cmd stdout stderr (base_directory ctx) (world s))
  in
  exists (success : bool) (s' : state W) (line : event),
    _sync os ctx source destination dmode fmode owner group rsync options
      stdout stderr s = (Ok success, s')
    /\ trace s'
       = (trace s ++ [Ev_run cmd (base_directory ctx) stdout stderr; line])%list
    /\ (success = true <-> answer = inr 0)
    /\ (forall returncode : Z,
          answer = inr returncode -> returncode <> 0 ->
          success = false
          /\ line = Ev_log Warning
                      (Failed_to_sync_exit_code src dst returncode))
    /\ (forall e : exn,
          answer = inl e ->
          success = false
          /\ line = Ev_log Warning (Failed_to_sync_exception src dst e)).
Proof.
  cbv zeta. rewrite sync_outcome. cbv zeta.
  destruct (subprocess_run os _ stdout stderr (base_directory ctx) (world s))
    as [[e|returncode] w']; cbn [fst].
  - eexists _, _, _. split; [reflexivity|]. split; [reflexivity|].
    split; [split; discriminate|]. split.
    + intros ? [=].
    + intros ? [= <-]. split; reflexivity.
  - destruct (Z.eqb_spec returncode 0) as [->|Hcode];
      eexists _, _, _; (split; [reflexivity|]); (split; [reflexivity|]).
    + split; [split; reflexivity|]. split.
      * intros ? [= <-] Hne. contradiction Hne; reflexivity.
      * intros ? [=].
    + split; [split; [discriminate | intros [= ->]; contradiction Hcode;
                                      reflexivity]|].
      split.
      * intros ? [= <-] _. split; reflexivity.
      * intros ? [=].
Qed.

(** C7: the source path handed to the tool ends with a separator when the
    original source path, resolved against the base directory, is a
    directory, and is the rewritten path with nothing appended when it is
    not. *)
Theorem sync_source_trailing_separator (source destination : string)
  (dmode fmode : Z) (owner group : option string) (rsync : string)
  (options : list string) (stdout stderr : stream) (s : state W) :
  let original := os_path_join os (base_directory ctx) source in
  let rewritten := _fix_windows_path_for_cwrsync (IS_WINDOWS os) original in
  exists (success : bool) (s' : state W) (front : list string)
         (src dst : string) (line : event),
    _sync os ctx source destination dmode fmode owner group rsync options
      stdout stderr s = (Ok success, s')
    /\ trace s'
       = (trace s ++
          [Ev_run (front ++ [src; dst]) (base_directory ctx) stdout stderr;
           line])%list
    /\ (os_path_isdir os (world s) original = true ->
        Str.endswith_char src Str.slash = true
        /\ (src = rewritten \/ src = rewritten ++ "/"))
    /\ (os_path_isdir os (world s) original = false -> src = rewritten).
Proof.
  cbv zeta. rewrite sync_outcome. cbv zeta. unfold command_line.
  rewrite app_assoc.
  pose proof (normalized_source_cases (world s) source) as [Hdir Hfile].
  destruct (subprocess_run os _ stdout stderr (base_directory ctx) (world s))
    as [[e|returncode] w'];
    [|destruct (returncode =? 0)];
    eexists _, _, _, _, _, _;
    (split; [reflexivity|]); (split; [reflexivity|]);
    (split; [exact Hdir | exact Hfile]).
Qed.

End SyncOperation.

(** ** The directory creator *)

Section DirectoryCreator.

Variable W : Type.
Variable os : OS W.

Lemma chmodown_outcome (path : string) (mode uid gid : Z) (s : state W) :
  _chmodown os path mode uid gid s
  = (Ok tt,
     {| world := snd (mode_and_owner_steps os path mode uid gid (world s));
        trace :=
          (trace s
           ++ fst (mode_and_owner_steps os path mode uid gid (world s)))%list
     |}).
Proof.
  unfold _chmodown, mode_and_owner_steps, bind, try_except, syscall, log,
    emit, ret, warning_of.
  destruct (os_chmod os path mode (world s)) as [[e1|] w1]; cbn;
    destruct (IS_WINDOWS os); cbn;
    try destruct (os_chown os path uid gid w1) as [[e2|] w2]; cbn;
    rewrite <- ?app_assoc; reflexivity.
Qed.

Lemma chown_attempted (path : string) (mode uid gid : Z) (w : W) :
  IS_WINDOWS os = false ->
  In (Ev_chown path uid gid)
    (fst (mode_and_owner_steps os path mode uid gid w)).
Proof.
  intros Hposix. unfold mode_and_owner_steps. rewrite Hposix.
  destruct (os_chmod os path mode w) as [failure w1].
  destruct (os_chown os path uid gid w1) as [failure' w2]. cbn [fst].
  apply in_or_app. right. left. reflexivity.
Qed.

(** C8: the directory creator never raises. When the parent exists it
    returns true and does nothing. When the parent is missing it returns
    false exactly when the creation of the directory fails; otherwise it
    goes on to chmod and, off Windows and whatever chmod answered, chown,
    each failure being a warning of its own, and returns true. *)
Theorem create_fails_only_on_mkdir (path : string) (dmode uid gid : Z)
  (s : state W) :
  let parent := os_path_abspath os (os_path_join os path "..") in
  let made := os_mkdir os parent dmode (world s) in
  let steps := mode_and_owner_steps os parent dmode uid gid (snd made) in
  exists (success : bool) (s' : state W),
    _create os path dmode uid gid s = (Ok success, s')
    /\ (os_path_exists os (world s) parent = true ->
        success = true /\ s' = s)
    /\ (os_path_exists os (world s) parent = false ->
        (success = false <-> fst made <> None)
        /\ (forall e : exn,
              fst made = Some e ->
              trace s'
              = (trace s
                 ++ [Ev_mkdir parent dmode;
                     Ev_log Warning
                       (Failed_to_create_directory parent e)])%list)
        /\ (fst made = None ->
            trace s'
            = (trace s
               ++ Ev_mkdir parent dmode
                  :: fst steps
                  ++ [Ev_log Lowinfo (Creating_directory parent)])%list
            /\ (IS_WINDOWS os = false ->
                In (Ev_chown parent uid gid) (fst steps)))).
Proof.
  cbv zeta. unfold _create. unfold bind at 1. unfold read_world at 1.
  destruct (os_path_exists os (world s) _) eqn:Hexists; cbn [negb].
  - eexists _, _. split; [reflexivity|]. split.
    + intros _. split; reflexivity.
    + discriminate.
  - unfold try_except_else. unfold bind at 1. unfold syscall at 1.
    destruct (os_mkdir os _ dmode (world s)) as [[e|] w1] eqn:Hmade;
      cbn [fst snd].
    + eexists _, _. split; [reflexivity|]. split; [discriminate|].
      intros _. split; [split; [discriminate | reflexivity]|]. split.
      * intros e' [= <-]. cbn. rewrite <- app_assoc. reflexivity.
      * discriminate.
    + rewrite chmodown_outcome. cbn [world trace].
      eexists _, _. split; [reflexivity|]. split; [discriminate|].
      intros _. split; [split; [discriminate | intros H; contradiction H;
                                                reflexivity]|].
      split; [intros e' [=]|]. intros _. split.
      * cbn. rewrite <- !app_assoc. reflexivity.
      * apply chown_attempted.
Qed.

End DirectoryCreator.

(** ** The directory mode *)

Lemma digits_value_decimal_acc (d : uint) (acc : positive) :
  Z.pos (Pos.of_uint_acc d acc) = digits_value 10 d (Z.pos acc).
Proof.
  revert acc. induction d as [|d IH|d IH|d IH|d IH|d IH|d IH|d IH|d IH|d IH
                              |d IH]; intros acc; cbn [Pos.of_uint_acc
                                                         digits_value];
    [reflexivity | rewrite IH; f_equal; lia ..].
Qed.

(** The digits of [Z.to_int] read in base ten give the number back. *)
Lemma digits_value_decimal (d : uint) : digits_value 10 d 0 = Z.of_uint d.
Proof.
  unfold Z.of_uint.
  induction d as [|d IH|d IH|d IH|d IH|d IH|d IH|d IH|d IH|d IH|d IH];
    cbn [Pos.of_uint digits_value Z.of_N];
    [reflexivity | exact IH
     | rewrite digits_value_decimal_acc; reflexivity ..].
Qed.

Lemma octal_digits_of_uint (d : uint) (acc : Z) :
  only_octal_digits (NilEmpty.string_of_uint d) = true ->
  PyInt.octal_digits acc (NilEmpty.string_of_uint d)
  = Some (digits_value 8 d acc).
Proof.
  revert acc.
  induction d as [|d IH|d IH|d IH|d IH|d IH|d IH|d IH|d IH|d IH|d IH];
    intros acc H;
    cbn [NilEmpty.string_of_uint only_octal_digits PyInt.octal_digits
         digits_value] in H |- *;
    try reflexivity;
    match goal with
    | |- context [PyInt.octal_digit ?c] =>
        let v := eval vm_compute in (PyInt.octal_digit c) in
        change (PyInt.octal_digit c) with v in *
    end;
    cbv iota beta in H |- *;
    try discriminate H;
    rewrite (IH _ H); f_equal; f_equal; lia.
Qed.

Lemma int_base8_of_uint (d : uint) :
  only_octal_digits (NilZero.string_of_uint d) = true ->
  PyInt.int_base8 (NilZero.string_of_uint d) = Some (digits_value 8 d 0).
Proof.
  destruct d as [|d|d|d|d|d|d|d|d|d|d]; intros H;
    try (cbn in H; discriminate H);
    try reflexivity;
    unfold NilZero.string_of_uint in *;
    match goal with
    | |- PyInt.int_base8 ?x = _ =>
        change (PyInt.int_base8 x) with (PyInt.octal_digits 0 x)
    end;
    apply octal_digits_of_uint; exact H.
Qed.

(** The text of a mode made of octal digits only is the text of a
    non-negative number, and base 8 reads its decimal digits. *)
Lemma int_base8_str (n : Z) :
  only_octal_digits (PyInt.str n) = true ->
  exists d : uint,
    Z.to_int n = Pos d
    /\ digits_value 10 d 0 = n
    /\ PyInt.int_base8 (PyInt.str n) = Some (digits_value 8 d 0)
    /\ octal_reading n = digits_value 8 d 0.
Proof.
  unfold PyInt.str, octal_reading. intros H.
  pose proof (DecimalZ.of_to n) as Hback.
  destruct (Z.to_int n) as [d|d]; cbn [NilZero.string_of_int] in H |- *.
  - exists d. split; [reflexivity|]. split.
    + rewrite digits_value_decimal. exact Hback.
    + split; [apply int_base8_of_uint; exact H | reflexivity].
  - cbn in H. discriminate H.
Qed.

(** ** The record processor *)

Section RecordProcessor.

Variable W : Type.
Variable os : OS W.
Variable ctx : context.

Lemma sync_runs_once (source destination : string) (dmode fmode : Z)
  (owner group : option string) (rsync : string) (options : list string)
  (stdout stderr : stream) (s : state W) :
  exists (success : bool) (s' : state W),
    _sync os ctx source destination dmode fmode owner group rsync options
      stdout stderr s = (Ok success, s')
    /\ runs (trace s')
       = (runs (trace s)
          ++ [Ev_run
                (command_line os ctx (world s) source destination dmode fmode
                   owner group rsync options)
                (base_directory ctx) stdout stderr])%list.
Proof.
  rewrite sync_outcome. cbv zeta.
  destruct (subprocess_run os _ stdout stderr (base_directory ctx) (world s))
    as [[e|returncode] w'];
    [|destruct (returncode =? 0)];
    eexists _, _; (split; [reflexivity|]);
    cbn [trace]; rewrite runs_app; reflexivity.
Qed.

(** The loop over the matched paths runs the sync operation on every one
    of them and returns the conjunction of what they returned. *)
Lemma sync_paths_attempts (l : locals) (paths : list string)
  (success : bool) (s : state W) :
  exists (synced : list bool) (s' : state W),
    map_m (fun path_item =>
             _sync os ctx path_item (v_destination l) (v_dmode l) (v_fmode l)
               (v_owner l) (v_group l) (v_rsync l) (v_options l)
               (v_stdout l) (v_stderr l))
      paths s = (Ok synced, s')
    /\ List.length synced = List.length paths
    /\ sync_paths os ctx l paths success s
       = (Ok (success && forallb (fun b => b) synced), s')
    /\ List.length (runs (trace s'))
       = (List.length (runs (trace s)) + List.length paths)%nat.
Proof.
  revert success s. induction paths as [|path_item rest IH]; intros success s.
  - exists [], s. cbn. rewrite andb_true_r, Nat.add_0_r. auto.
  - destruct (sync_runs_once path_item (v_destination l) (v_dmode l)
                (v_fmode l) (v_owner l) (v_group l) (v_rsync l) (v_options l)
                (v_stdout l) (v_stderr l) s) as (b & s1 & Hsync & Hruns).
    destruct (IH (success && b) s1) as (bs & s2 & Hmap & Hlen & Hloop & Hcount).
    exists (b :: bs), s2. unfold sync_paths in *. cbn [map_m for_each].
    split; [|split; [|split]].
    + rewrite (bind_ok Hsync), (bind_ok Hmap). reflexivity.
    + cbn. congruence.
    + erewrite bind_ok by (rewrite (bind_ok Hsync); reflexivity).
      rewrite Hloop. cbn [forallb]. rewrite andb_assoc. reflexivity.
    + rewrite Hcount, Hruns, length_app. cbn. lia.
Qed.


(** One iteration of the loop returns the conjunction of the success so
    far and of every attempt of the record. *)
Lemma process_record_attempts (record : string * source_spec)
  (success : bool) (s : state W) :
  process_record os ctx record success s
  = match record_attempts os ctx record s with
    | (Ok attempts, s') =>
        (Ok (success && forallb (fun b => b) attempts), s')
    | (Raise e, s') => (Raise e, s')
    end.
Proof.
  unfold process_record, record_attempts, create_parent, bind.
  destruct (resolve os ctx (fst record) (snd record) s) as [[l|e] s1];
    [|reflexivity].
  destruct (resolve_ids os (v_owner l) (v_group l) s1) as [[ids|e] s2];
    [|reflexivity].
  destruct (v_create l);
    [destruct (octal_mode (v_dmode l) s2) as [[mode|e] s3]; [|reflexivity];
     destruct (_create os (v_destination l) mode (fst ids) (snd ids) s3)
       as [[created|e] s4]; [|reflexivity]|];
    unfold ret;
    match goal with
    | |- context [expand_path os ?e true ?s0] =>
        destruct (expand_path os e true s0) as [[paths|e'] s5];
        [|reflexivity]
    end;
    match goal with
    | |- context [(1 <? List.length ?p)%nat] =>
        destruct (1 <? List.length p)%nat
    end;
    unfold log, emit;
    match goal with
    | |- context [sync_paths os ctx l ?p ?acc ?s0] =>
        destruct (sync_paths_attempts l p acc s0)
          as (synced & s6 & Hmap & _ & Hloop & _);
        rewrite Hmap, Hloop
    end;
    repeat match goal with
      | |- context [close_stream ?h ?s0] =>
          destruct (close_stream h s0) as [[?|?] ?]; [|reflexivity]
      end;
    rewrite ?forallb_app; cbn [forallb andb];
    rewrite ?andb_true_r, ?andb_assoc; reflexivity.
Qed.

Lemma records_attempts (records : list (string * source_spec))
  (success : bool) (s : state W) :
  for_each records (process_record os ctx) success s
  = match map_m (record_attempts os ctx) records s with
    | (Ok per_record, s') =>
        (Ok (success && forallb (fun b => b) (List.concat per_record)), s')
    | (Raise e, s') => (Raise e, s')
    end.
Proof.
  revert success s. induction records as [|record rest IH]; intros success s.
  - cbn. rewrite andb_true_r. reflexivity.
  - cbn [for_each map_m]. unfold bind at 1 2.
    rewrite process_record_attempts.
    destruct (record_attempts os ctx record s) as [[attempts|e] s1];
      [|reflexivity].
    rewrite IH. unfold bind.
    destruct (map_m (record_attempts os ctx) rest s1)
      as [[per_record|e] s2]; [|reflexivity].
    cbn [ret List.concat]. rewrite forallb_app, andb_assoc. reflexivity.
Qed.

(** C3: the record processor returns the conjunction of the success
    booleans of every invocation of the run (the directory creations and
    one sync operation per matched source path, of every record), each of
    them attempted whatever the others returned; in particular the loop
    over the matched paths of a record never raises and runs the tool once
    per path, failures or not. *)
Theorem process_records_is_conjunction_of_attempts
  (records : list (string * source_spec)) (s : state W) :
  _process_records os ctx records s
  = (attempts <- all_attempts os ctx records ;; report attempts) s
  /\ forall (l : locals) (paths : list string) (success : bool)
            (s0 : state W),
       exists (synced : list bool) (s1 : state W),
         map_m (fun path_item =>
                  _sync os ctx path_item (v_destination l) (v_dmode l)
                    (v_fmode l) (v_owner l) (v_group l) (v_rsync l)
                    (v_options l) (v_stdout l) (v_stderr l))
           paths s0 = (Ok synced, s1)
         /\ List.length synced = List.length paths
         /\ sync_paths os ctx l paths success s0
            = (Ok (success && forallb (fun b => b) synced), s1)
         /\ List.length (runs (trace s1))
            = (List.length (runs (trace s0)) + List.length paths)%nat.
Proof.
  split; [|apply sync_paths_attempts].
  unfold _process_records, all_attempts, report. unfold bind at 1.
  rewrite records_attempts. unfold bind.
  destruct (map_m (record_attempts os ctx) records s)
    as [[per_record|e] s1]; reflexivity.
Qed.

Lemma for_each_app {A B : Type} (xs ys : list A) (body : A -> B -> M W B)
  (acc : B) (s : state W) :
  for_each (xs ++ ys) body acc s
  = (acc' <- for_each xs body acc ;; for_each ys body acc') s.
Proof.
  revert acc s. induction xs as [|x rest IH]; intros acc s.
  - reflexivity.
  - simpl. unfold bind.
    destruct (body x acc s) as [[acc'|e] s1]; [|reflexivity].
    rewrite IH. reflexivity.
Qed.

(** What the resolution of a record returns when it returns: the expanded
    destination; every field from the record when the record sets it and
    from the defaults otherwise, with the output streams of a bare record
    always inherited; and no call but the opening of the null device. *)
Lemma resolve_outcome (destination : string) (source : source_spec)
  (s s' : state W) (l : locals) :
  resolve os ctx destination source s = (Ok l, s') ->
  let d := defaults ctx in
  let r := match source with Extended r => r | Bare _ => empty_dict end in
  v_destination l = os_path_expandvars os (os_path_expanduser os destination)
  /\ world s' = world s
  /\ runs (trace s') = runs (trace s)
  /\ mkdirs (trace s') = mkdirs (trace s)
  /\ v_create l = dict_get (k_create r) (dict_get (k_create d) false)
  /\ v_rsync l = dict_get (k_rsync r) (dict_get (k_rsync d) "rsync")
  /\ v_options l
     = dict_get (k_options r)
         (dict_get (k_options d) ["--delete"; "--safe-links"])
  /\ v_fmode l = dict_get (k_fmode r) (dict_get (k_fmode d) 644)
  /\ v_dmode l = dict_get (k_dmode r) (dict_get (k_dmode d) 755)
  /\ (exists default_owner default_group : option string,
        (if IS_WINDOWS os
         then default_owner = os_getlogin os /\ default_group = None
         else default_owner = current_pw_name os
              /\ default_group = current_gr_name os)
        /\ default_owner <> None
        /\ v_owner l
           = dict_get (k_owner r) (dict_get (k_owner d) default_owner)
        /\ v_group l
           = dict_get (k_group r) (dict_get (k_group d) default_group))
  /\ match source with
     | Extended r =>
         k_path r = Some (v_paths_expression l)
         /\ v_stdout l
            = (if dict_get (k_stdout r) (dict_get (k_stdout d) true)
               then Inherit else DevNull)
         /\ v_stderr l
            = (if dict_get (k_stderr r) (dict_get (k_stderr d) true)
               then Inherit else DevNull)
     | Bare paths_expression =>
         v_paths_expression l = paths_expression
         /\ v_stdout l = Inherit
         /\ v_stderr l = Inherit
     end.
Proof.
  cbv zeta. unfold resolve, expand_path, unpack_one, open_devnull.
  unfold bind, ret, or_raise, raise, emit. cbn [negb].
  destruct (IS_WINDOWS os); cbn [negb];
    [destruct (os_getlogin os) as [login|]
    |destruct (current_pw_name os) as [pw|];
     [destruct (current_gr_name os) as [gr|]|]];
    try (intros [=]; fail);
    (destruct source as [p|r];
     [|destruct (k_path r) as [p|]; [|intros [=]];
       destruct (dict_get (k_stdout r)
                   (dict_get (k_stdout (defaults ctx)) true));
       destruct (dict_get (k_stderr r)
                   (dict_get (k_stderr (defaults ctx)) true))]);
    cbn [negb fst snd]; intros [= <- <-]; cbn [v_destination v_create v_rsync
      v_options v_fmode v_dmode v_owner v_group v_stdout v_stderr
      v_paths_expression world trace];
    unfold mkdirs; rewrite ?runs_app, ?filter_app; cbn [runs filter];
    rewrite ?app_nil_r;
    repeat (split; [reflexivity|]);
    (split; [eexists _, _; (split; [split; reflexivity|]);
             (split; [discriminate|]); split; reflexivity|]);
    repeat split; reflexivity.
Qed.

Lemma resolve_ids_unknown (owner group : option string) (s : state W) :
  IS_WINDOWS os = false ->
  (truthy owner = true /\ pwd_getpwnam os (dict_get owner "") = None)
  \/ (truthy group = true /\ grp_getgrnam os (dict_get group "") = None) ->
  exists name : string,
    resolve_ids os owner group s = (Raise (KeyError name), s).
Proof.
  intros Hposix Hunknown.
  unfold resolve_ids, bind, ret, or_raise, raise. rewrite Hposix. cbn [negb].
  destruct Hunknown as [[Ho Hpw]|[Hg Hgr]].
  - rewrite Ho, Hpw. eexists. reflexivity.
  - rewrite Hg, Hgr.
    destruct (truthy owner);
      [destruct (pwd_getpwnam os (dict_get owner ""))|];
      eexists; reflexivity.
Qed.



(** C10: on a POSIX system, when the owner or the group of a record (its
    own or the default) is a non-empty name that the user or group database
    does not hold, the record processor raises the [KeyError] of the
    lookup: it returns no boolean, and the run stops in the state reached
    when the configuration of that record was read, with no directory
    created and no tool run for it or for the records after it. *)
Theorem unknown_owner_or_group_aborts_run
  (before after : list (string * source_spec))
  (record : string * source_spec) (s s1 s2 : state W) (success : bool)
  (l : locals)
  (Hposix : IS_WINDOWS os = false)
  (Hbefore :
     for_each before (process_record os ctx) true s = (Ok success, s1))
  (Hresolve : resolve os ctx (fst record) (snd record) s1 = (Ok l, s2))
  (Hunknown :
     (truthy (v_owner l) = true
      /\ pwd_getpwnam os (dict_get (v_owner l) "") = None)
     \/ (truthy (v_group l) = true
         /\ grp_getgrnam os (dict_get (v_group l) "") = None)) :
  exists name : string,
    _process_records os ctx (before ++ record :: after) s
    = (Raise (KeyError name), s2)
    /\ runs (trace s2) = runs (trace s1)
    /\ mkdirs (trace s2) = mkdirs (trace s1).
Proof.
  destruct (resolve_ids_unknown (v_owner l) (v_group l) s2 Hposix Hunknown)
    as [name Hids].
  exists name. split.
  - unfold _process_records.
    apply bind_raise. rewrite for_each_app. rewrite (bind_ok Hbefore).
    cbn [for_each]. apply bind_raise. unfold process_record.
    rewrite (bind_ok Hresolve). apply bind_raise. exact Hids.
  - pose proof (resolve_outcome _ _ _ Hresolve) as H. cbv zeta in H.
    split; apply H.
Qed.

Lemma create_missing_parent (path : string) (dmode uid gid : Z)
  (s : state W) :
  os_path_exists os (world s)
    (os_path_abspath os (os_path_join os path "..")) = false ->
  exists (success : bool) (s' : state W) (later : list event),
    _create os path dmode uid gid s = (Ok success, s')
    /\ trace s'
       = (trace s
          ++ Ev_mkdir (os_path_abspath os (os_path_join os path "..")) dmode
             :: later)%list.
Proof.
  intros Hmissing. unfold _create. unfold bind at 1. unfold read_world at 1.
  rewrite Hmissing. cbn [negb].
  unfold try_except_else. unfold bind at 1. unfold syscall at 1.
  destruct (os_mkdir os _ dmode (world s)) as [[e|] w1].
  - eexists _, _, _. split; [reflexivity|]. cbn.
    rewrite <- app_assoc. reflexivity.
  - rewrite chmodown_outcome. cbn [world trace].
    eexists _, _, _. split; [reflexivity|]. cbn.
    rewrite <- !app_assoc. reflexivity.
Qed.

(** C9: when the decimal text of [dmode] holds octal digits only, the mode
    that the creation of the missing parent directory receives is that
    text read in base 8: the digits that give [dmode] in base ten give the
    mode in base eight, as 755 gives 0o755, which is 493. *)
Theorem directory_mode_is_octal_reading (l : locals) (uid gid : Z)
  (success : bool) (s : state W)
  (Hcreate : v_create l = true)
  (Hmissing :
     os_path_exists os (world s)
       (os_path_abspath os (os_path_join os (v_destination l) "..")) = false)
  (Hdigits : only_octal_digits (PyInt.str (v_dmode l)) = true) :
  exists (d : uint) (result : bool) (s' : state W) (later : list event),
    Z.to_int (v_dmode l) = Pos d
    /\ digits_value 10 d 0 = v_dmode l
    /\ octal_reading (v_dmode l) = digits_value 8 d 0
    /\ PyInt.int_base8 (PyInt.str (v_dmode l))
       = Some (octal_reading (v_dmode l))
    /\ create_parent os l uid gid success s = (Ok result, s')
    /\ trace s'
       = (trace s
          ++ Ev_mkdir
               (os_path_abspath os (os_path_join os (v_destination l) ".."))
               (octal_reading (v_dmode l))
             :: later)%list
    /\ octal_reading 755 = 493.
Proof.
  destruct (int_base8_str _ Hdigits) as (d & Hd & Hten & Height & Hreading).
  destruct (create_missing_parent (v_destination l)
              (octal_reading (v_dmode l)) uid gid s Hmissing)
    as (created & s' & later & Hrun & Htrace).
  exists d, (success && created), s', later.
  rewrite Hreading in *.
  repeat (split; [assumption || reflexivity|]).
  split; [|split; [exact Htrace | reflexivity]].
  unfold create_parent. rewrite Hcreate.
  unfold octal_mode. rewrite Height. cbn [or_raise].
  unfold bind at 1. cbn [ret]. rewrite (bind_ok Hrun). reflexivity.
Qed.

End RecordProcessor.

(** ** The plugin on the small system *)

Lemma sync_argument_vector_witness :
  exists (success : bool) (w' : Demo.fs) (line : event),
    _sync Demo.posix Demo.plain "vim" "~/.vim" 755 644 (Some "alice")
      (Some "staff") "rsync" ["--delete"] Inherit Inherit Demo.start
    = (Ok success,
       {| world := w';
          trace :=
            [Ev_run
               ["rsync"; "--update"; "--recursive"; "--owner"; "--group";
                "--chown=alice:staff"; "--chmod=D755,F644"; "--delete";
                "/repo/vim/"; "/home/alice/.vim"]
               "/repo" Inherit Inherit;
             line] |}).
Proof.
  apply (@sync_argument_vector Demo.fs Demo.posix Demo.plain "vim" "~/.vim"
           755 644 (Some "alice") (Some "staff") "rsync" ["--delete"]
           Inherit Inherit Demo.start).
  discriminate.
Defined.

(** C1 as stated fails for a tool configured as the empty string: the
    filter that removes the empty chown flag removes the tool as well, and
    the vector starts with [--update]. *)
Lemma sync_argument_vector_empty_tool :
  let ran :=
    runs (trace (snd (_sync Demo.posix Demo.plain "bashrc" "~/.bashrc" 755
                        644 (Some "alice") (Some "staff") "" [] Inherit
                        Inherit Demo.start))) in
  ran
  = [Ev_run
       ["--update"; "--recursive"; "--owner"; "--group";
        "--chown=alice:staff"; "--chmod=D755,F644"; "/repo/bashrc";
        "/home/alice/.bashrc"]
       "/repo" Inherit Inherit]
  /\ ran
     <> [Ev_run
           (expected_argv "" (Some "alice") (Some "staff") 755 644 []
              (normalized_source Demo.posix Demo.plain Demo.disk "bashrc")
              (normalized_destination Demo.posix "~/.bashrc"))
           "/repo" Inherit Inherit].
Proof.
  cbv zeta. split; [reflexivity|]. vm_compute. discriminate.
Qed.


(** C2 at the failing input: with [stdout: false] in the defaults, a bare
    record runs the tool with the inherited output stream, where the same
    record as an extended specification runs it with the null device. *)
Theorem bare_record_ignores_stdout_default :
  runs (trace (snd (_process_records Demo.posix Demo.quiet
                      [("~/.bashrc", Bare "bashrc")] Demo.start)))
  = [Ev_run
       ["rsync"; "--update"; "--recursive"; "--owner"; "--group";
        "--chown=alice:staff"; "--chmod=D755,F644"; "--delete";
        "--safe-links"; "/repo/bashrc"; "/home/alice/.bashrc"]
       "/repo" Inherit Inherit]
  /\ runs (trace (snd (_process_records Demo.posix Demo.quiet
                         [("~/.bashrc", Extended (Demo.only_path "bashrc"))]
                         Demo.start)))
     = [Ev_run
          ["rsync"; "--update"; "--recursive"; "--owner"; "--group";
           "--chown=alice:staff"; "--chmod=D755,F644"; "--delete";
           "--safe-links"; "/repo/bashrc"; "/home/alice/.bashrc"]
          "/repo" DevNull Inherit].
Proof. split; reflexivity. Qed.

Lemma unknown_owner_or_group_aborts_run_witness :
  exists name : string,
    _process_records Demo.posix Demo.plain
      ([] ++ ("~/.vim", Extended Demo.for_mallory)
          :: [("~/.bashrc", Bare "bashrc")])
      Demo.start
    = (Raise (KeyError name), Demo.start)
    /\ runs (trace Demo.start) = runs (trace Demo.start)
    /\ mkdirs (trace Demo.start) = mkdirs (trace Demo.start).
Proof.
  apply (@unknown_owner_or_group_aborts_run Demo.fs Demo.posix Demo.plain
           [] [("~/.bashrc", Bare "bashrc")]
           ("~/.vim", Extended Demo.for_mallory)
           Demo.start Demo.start Demo.start true
           {| v_destination := "/home/alice/.vim"; v_create := false;
              v_rsync := "rsync"; v_options := ["--delete"; "--safe-links"];
              v_fmode := 644; v_dmode := 755; v_owner := Some "mallory";
              v_group := Some "staff"; v_stdout := Inherit;
              v_stderr := Inherit; v_paths_expression := "vim" |}).
  - reflexivity.
  - reflexivity.
  - reflexivity.
  - left. split; reflexivity.
Defined.

Lemma directory_mode_is_octal_reading_witness :
  exists (d : uint) (result : bool) (s' : state Demo.fs)
         (later : list event),
    Z.to_int 755 = Pos d
    /\ digits_value 10 d 0 = 755
    /\ octal_reading 755 = digits_value 8 d 0
    /\ PyInt.int_base8 (PyInt.str 755) = Some (octal_reading 755)
    /\ create_parent Demo.posix Demo.nvim_locals 1000 50 true Demo.start
       = (Ok result, s')
    /\ trace s'
       = Ev_mkdir "/home/alice/.config" (octal_reading 755) :: later
    /\ octal_reading 755 = 493.
Proof.
  apply (@directory_mode_is_octal_reading Demo.fs Demo.posix
           Demo.nvim_locals 1000 50 true Demo.start);
    reflexivity.
Defined.

(* ===================================================================== *)
(** * Part V: further properties of the code                              *)
(* ===================================================================== *)

(** ** The path rewriting, beyond the drive form *)

Lemma replace_char_absent (a b : ascii) (s : string) :
  Str.mem_char a s = false -> Str.replace_char a b s = s.
Proof.
  induction s as [|x t IH]; simpl; intros H; [reflexivity|].
  apply orb_false_elim in H. destruct H as [Hx Ht].
  rewrite Hx, (IH Ht). reflexivity.
Qed.

Lemma replace_char_removes (a b : ascii) (s : string) :
  Ascii.eqb b a = false ->
  Str.mem_char a (Str.replace_char a b s) = false.
Proof.
  intros Hba. induction s as [|x t IH]; simpl; [reflexivity|].
  rewrite IH, orb_false_r.
  destruct (Ascii.eqb x a) eqn:Hx; [exact Hba | exact Hx].
Qed.

Lemma dot_star_keeps_absent (c : ascii) (s : string) :
  Str.mem_char c s = false ->
  Str.mem_char c (fst (DriveRegex.dot_star s)) = false.
Proof.
  induction s as [|x t IH]; simpl; intros H; [reflexivity|].
  apply orb_false_elim in H. destruct H as [Hx Ht].
  destruct (Ascii.eqb x Str.newline); [reflexivity|].
  specialize (IH Ht). destruct (DriveRegex.dot_star t) as [m r].
  simpl in *. rewrite Hx, IH. reflexivity.
Qed.

Lemma lower_letter_not_backslash (d : ascii) :
  Str.is_ascii_letter d = true ->
  Ascii.eqb (Str.lower d) Str.backslash = false.
Proof.
  destruct d as [[|] [|] [|] [|] [|] [|] [|] [|]]; vm_compute;
    intros H; try reflexivity; discriminate H.
Qed.

(** What a match of the drive form returns: a letter, and a rest that
    holds no character that the path did not hold. *)
Lemma match_drive_some (path : string) (d : ascii) (rest : string) :
  DriveRegex.match_drive path = Some (d, rest) ->
  Str.is_ascii_letter d = true
  /\ forall c : ascii,
       Str.mem_char c path = false -> Str.mem_char c rest = false.
Proof.
  unfold DriveRegex.match_drive.
  destruct path as [|d0 [|c1 [|c2 tail]]]; try discriminate.
  { destruct c1 as [[|] [|] [|] [|] [|] [|] [|] [|]]; discriminate. }
  destruct (Ascii.eqb_spec c1 ":"%char) as [->|Hc1].
  - destruct (Ascii.eqb_spec c2 "/"%char) as [->|Hc2].
    + destruct (Str.is_ascii_letter d0) eqn:Hletter; [|discriminate].
      destruct (DriveRegex.dot_star tail) as [m r] eqn:Hstar.
      destruct (DriveRegex.at_end r); [|discriminate].
      intros [= <- <-]. split; [exact Hletter|].
      intros c Hc. simpl in Hc.
      apply orb_false_elim in Hc. destruct Hc as [_ Hc].
      apply orb_false_elim in Hc. destruct Hc as [_ Hc].
      apply orb_false_elim in Hc. destruct Hc as [_ Hc].
      pose proof (dot_star_keeps_absent c tail Hc) as H.
      rewrite Hstar in H. exact H.
    + destruct c2 as [[|] [|] [|] [|] [|] [|] [|] [|]];
        try discriminate; contradiction Hc2; reflexivity.
  - destruct c1 as [[|] [|] [|] [|] [|] [|] [|] [|]];
      try discriminate; contradiction Hc1; reflexivity.
Qed.

Lemma fix_path_result (path : string) :
  let replaced := Str.replace_char Str.backslash Str.slash path in
  (_fix_windows_path_for_cwrsync true path = replaced
   /\ DriveRegex.match_drive replaced = None)
  \/ (exists (d : ascii) (rest : string),
        _fix_windows_path_for_cwrsync true path
        = "/cygdrive/" ++ String (Str.lower d) ("/" ++ rest)
        /\ Str.is_ascii_letter d = true
        /\ Str.mem_char Str.backslash rest = false).
Proof.
  cbv zeta. unfold _fix_windows_path_for_cwrsync. cbn [negb].
  destruct (DriveRegex.match_drive _) as [[d rest]|] eqn:Hmatch.
  - right. exists d, rest. split; [reflexivity|].
    destruct (match_drive_some _ Hmatch) as [Hletter Hrest].
    split; [exact Hletter|]. apply Hrest.
    apply replace_char_removes. reflexivity.
  - left. split; reflexivity.
Qed.

(** X2: on Windows the rewritten path holds no backslash, whatever the
    path. *)
Theorem fix_windows_path_has_no_backslash (path : string) :
  Str.mem_char Str.backslash (_fix_windows_path_for_cwrsync true path)
  = false.
Proof.
  destruct (fix_path_result path) as [[-> _]|(d & rest & -> & Hd & Hrest)].
  - apply replace_char_removes. reflexivity.
  - simpl. rewrite (lower_letter_not_backslash _ Hd), Hrest. reflexivity.
Qed.

(** X1: rewriting a rewritten path changes nothing, on Windows and
    elsewhere: a path that went through the function can go through it
    again. *)
Theorem fix_windows_path_idempotent (IS_WINDOWS : bool) (path : string) :
  _fix_windows_path_for_cwrsync IS_WINDOWS
    (_fix_windows_path_for_cwrsync IS_WINDOWS path)
  = _fix_windows_path_for_cwrsync IS_WINDOWS path.
Proof.
  destruct IS_WINDOWS; [|reflexivity].
  destruct (fix_path_result path)
    as [[Hfix Hnone]|(d & rest & Hfix & Hd & Hrest)];
    rewrite Hfix.
  - unfold _fix_windows_path_for_cwrsync at 1. cbn [negb].
    rewrite (replace_char_absent _ _ _
               (replace_char_removes Str.backslash Str.slash path eq_refl)).
    rewrite Hnone. reflexivity.
  - unfold _fix_windows_path_for_cwrsync. cbn [negb].
    rewrite replace_char_absent.
    + reflexivity.
    + simpl. rewrite (lower_letter_not_backslash _ Hd), Hrest. reflexivity.
Qed.

Lemma dot_star_before_final_newline (rest : string) :
  Str.mem_char Str.newline rest = false ->
  DriveRegex.dot_star (rest ++ String Str.newline EmptyString)
  = (rest, String Str.newline EmptyString).
Proof.
  induction rest as [|c t IH]; simpl; intros H; [reflexivity|].
  apply orb_false_elim in H. destruct H as [Hc Ht].
  rewrite Hc, (IH Ht). reflexivity.
Qed.

(** X3: on Windows a line feed that ends a path of the drive form is
    dropped by the rewriting: the pattern matches before it, and the path
    is rebuilt from the groups alone. *)
Theorem fix_windows_path_drops_final_line_feed (path : string) (d : ascii)
  (rest : string)
  (Hform : Str.replace_char Str.backslash Str.slash path
           = String d (":/" ++ rest ++ String Str.newline EmptyString))
  (Hletter : Str.is_ascii_letter d = true)
  (Hline : Str.mem_char Str.newline rest = false) :
  _fix_windows_path_for_cwrsync true path
  = "/cygdrive/" ++ String (Str.lower d) ("/" ++ rest).
Proof.
  unfold _fix_windows_path_for_cwrsync. cbn [negb]. rewrite Hform.
  simpl. rewrite Hletter, (dot_star_before_final_newline _ Hline).
  simpl. reflexivity.
Qed.

Lemma fix_windows_path_drops_final_line_feed_witness :
  _fix_windows_path_for_cwrsync true
    ("C:\Users\Name" ++ String Str.newline EmptyString)
  = "/cygdrive/c/Users/Name".
Proof.
  apply (@fix_windows_path_drops_final_line_feed
           ("C:\Users\Name" ++ String Str.newline EmptyString) "C"%char
           "Users/Name");
    reflexivity.
Defined.

(** ** The calls of the sync operation and of the directory creator *)

Section Calls.

Variable W : Type.
Variable os : OS W.
Variable ctx : context.

(** X4: for any tool name, empty or not, the sync operation runs the
    vector made of the tool name unless it is empty, the four fixed flags,
    the chown flag when owner and group are both non-empty, the chmod
    flag, the options as given (empty strings included), the source and
    the destination. *)
Theorem sync_argument_vector_any_tool (source destination : string)
  (dmode fmode : Z) (owner group : option string) (rsync : string)
  (options : list string) (stdout stderr : stream) (s : state W) :
  exists (success : bool) (w' : W) (line : event),
    _sync os ctx source destination dmode fmode owner group rsync options
      stdout stderr s
    = (Ok success,
       {| world := w';
          trace :=
            trace s ++
            [Ev_run
               (tool_slot rsync
                  ++ ["--update"; "--recursive"; "--owner"; "--group"]
                  ++ chown_flag owner group
                  ++ [chmod_flag dmode fmode]
                  ++ options
                  ++ [normalized_source os ctx (world s) source;
                      normalized_destination os destination])
               (base_directory ctx) stdout stderr;
             line] |})%list.
Proof.
  rewrite sync_outcome. cbv zeta. unfold command_line, tool_slot.
  destruct rsync as [|c t].
  - rewrite flags_filtered_no_tool. cbn [Str.nonempty].
    rewrite <- !app_assoc. cbn [app].
    destruct (subprocess_run os _ stdout stderr (base_directory ctx)
                (world s)) as [[e|returncode] w'];
      [|destruct (returncode =? 0)]; eexists _, _, _; reflexivity.
  - rewrite (@flags_filtered dmode fmode owner group (String c t) eq_refl).
    cbn [Str.nonempty]. rewrite <- !app_assoc. cbn [app].
    destruct (subprocess_run os _ stdout stderr (base_directory ctx)
                (world s)) as [[e|returncode] w'];
      [|destruct (returncode =? 0)]; eexists _, _, _; reflexivity.
Qed.

(** What [_create] does, by the answers of the system. *)
Lemma create_outcome (path : string) (dmode uid gid : Z) (s : state W) :
  let parent := os_path_abspath os (os_path_join os path "..") in
  _create os path dmode uid gid s
  = if os_path_exists os (world s) parent then (Ok true, s)
    else
      match os_mkdir os parent dmode (world s) with
      | (Some e, w1) =>
          (Ok false,
           {| world := w1;
              trace :=
                trace s
                ++ [Ev_mkdir parent dmode;
                    Ev_log Warning (Failed_to_create_directory parent e)]
           |})
      | (None, w1) =>
          (Ok true,
           {| world :=
                snd (mode_and_owner_steps os parent dmode uid gid w1);
              trace :=
                trace s
                ++ Ev_mkdir parent dmode
                   :: fst (mode_and_owner_steps os parent dmode uid gid w1)
                   ++ [Ev_log Lowinfo (Creating_directory parent)] |})
      end%list.
Proof.
  cbv zeta. unfold _create. unfold bind at 1. unfold read_world at 1.
  destruct (os_path_exists os (world s) _); cbn [negb]; [reflexivity|].
  unfold try_except_else. unfold bind at 1. unfold syscall at 1.
  destruct (os_mkdir os _ dmode (world s)) as [[e|] w1].
  - cbn. rewrite <- app_assoc. reflexivity.
  - rewrite chmodown_outcome. cbn. rewrite <- !app_assoc. reflexivity.
Qed.

Lemma steps_readings (path : string) (mode uid gid : Z) (w : W) :
  let steps := fst (mode_and_owner_steps os path mode uid gid w) in
  mkdirs steps = []
  /\ runs steps = []
  /\ handle_events steps = []
  /\ no_failure steps = true
  /\ chowns steps
     = if IS_WINDOWS os then [] else [Ev_chown path uid gid].
Proof.
  cbv zeta. unfold mode_and_owner_steps, warning_of.
  destruct (os_chmod os path mode w) as [[e1|] w1];
    destruct (IS_WINDOWS os);
    try destruct (os_chown os path uid gid w1) as [[e2|] w2];
    repeat split; reflexivity.
Qed.

Lemma steps_chmods (path : string) (mode uid gid : Z) (w : W) :
  chmods (fst (mode_and_owner_steps os path mode uid gid w))
  = [Ev_chmod path mode].
Proof.
  unfold mode_and_owner_steps, warning_of.
  destruct (os_chmod os path mode w) as [[e1|] w1];
    destruct (IS_WINDOWS os);
    try destruct (os_chown os path uid gid w1) as [[e2|] w2];
    reflexivity.
Qed.

(** X5: the directory creator asks for one directory at most, the parent
    of the path and nothing above it, and only when the parent is missing;
    when the creation succeeded it sets the mode of that directory once
    more, to the mode it was created with, and changes its ownership once
    on a system that is not Windows; it changes no mode and no ownership
    otherwise, and never runs the tool. *)
Theorem create_makes_one_directory (path : string) (dmode uid gid : Z)
  (s : state W) :
  let parent := os_path_abspath os (os_path_join os path "..") in
  let s' := snd (_create os path dmode uid gid s) in
  mkdirs (trace s')
  = (mkdirs (trace s)
     ++ (if os_path_exists os (world s) parent then []
         else [Ev_mkdir parent dmode]))%list
  /\ chmods (trace s')
     = (chmods (trace s)
        ++ (if os_path_exists os (world s) parent then []
            else match fst (os_mkdir os parent dmode (world s)) with
                 | Some _ => []
                 | None => [Ev_chmod parent dmode]
                 end))%list
  /\ chowns (trace s')
     = (chowns (trace s)
        ++ (if os_path_exists os (world s) parent then []
            else match fst (os_mkdir os parent dmode (world s)) with
                 | Some _ => []
                 | None =>
                     if IS_WINDOWS os then []
                     else [Ev_chown parent uid gid]
                 end))%list
  /\ runs (trace s') = runs (trace s).
Proof.
  cbv zeta. rewrite create_outcome. cbv zeta.
  destruct (os_path_exists os (world s) _).
  - cbn [snd]. rewrite !app_nil_r. repeat split; reflexivity.
  - destruct (os_mkdir os _ dmode (world s)) as [[e|] w1]; cbn [fst snd trace].
    + unfold mkdirs, chmods, chowns, runs. rewrite !filter_app. cbn.
      rewrite !app_nil_r. repeat split; reflexivity.
    + pose proof (steps_readings
                    (os_path_abspath os (os_path_join os path ".."))
                    dmode uid gid w1) as (Hm & Hr & _ & _ & Hc).
      pose proof (steps_chmods
                    (os_path_abspath os (os_path_join os path ".."))
                    dmode uid gid w1) as Hch.
      cbv zeta in Hm, Hr, Hc.
      unfold mkdirs, chmods, chowns, runs in *.
      rewrite !filter_app. cbn [filter]. rewrite !filter_app.
      rewrite Hm, Hr, Hc, Hch. cbn. rewrite !app_nil_r.
      repeat split; reflexivity.
Qed.

End Calls.

(** ** What a run leaves in the trace *)

Section Runs.

Variable W : Type.
Variable os : OS W.
Variable ctx : context.

Lemma no_failure_app (a b : list event) :
  no_failure (a ++ b) = no_failure a && no_failure b.
Proof. apply forallb_app. Qed.

Lemma handle_events_app (a b : list event) :
  handle_events (a ++ b) = (handle_events a ++ handle_events b)%list.
Proof. apply filter_app. Qed.

Lemma sync_added (source destination : string) (dmode fmode : Z)
  (owner group : option string) (rsync : string) (options : list string)
  (stdout stderr : stream) (s : state W) :
  exists (success : bool) (s' : state W) (added : list event),
    _sync os ctx source destination dmode fmode owner group rsync options
      stdout stderr s = (Ok success, s')
    /\ trace s' = (trace s ++ added)%list
    /\ success = no_failure added
    /\ handle_events added = [].
Proof.
  rewrite sync_outcome. cbv zeta.
  destruct (subprocess_run os _ stdout stderr (base_directory ctx) (world s))
    as [[e|returncode] w'];
    [|destruct (returncode =? 0)];
    eexists _, _, _; repeat split; reflexivity.
Qed.

Lemma create_added (path : string) (dmode uid gid : Z) (s : state W) :
  exists (success : bool) (s' : state W) (added : list event),
    _create os path dmode uid gid s = (Ok success, s')
    /\ trace s' = (trace s ++ added)%list
    /\ success = no_failure added
    /\ handle_events added = [].
Proof.
  rewrite create_outcome. cbv zeta.
  destruct (os_path_exists os (world s) _).
  - exists true, s, []. rewrite app_nil_r. repeat split; reflexivity.
  - destruct (os_mkdir os _ dmode (world s)) as [[e|] w1].
    + eexists _, _, _. repeat split; reflexivity.
    + pose proof (steps_readings os
                    (os_path_abspath os (os_path_join os path ".."))
                    dmode uid gid w1) as (_ & _ & Hh & Hf & _).
      cbv zeta in Hh, Hf.
      eexists _, _, _. split; [reflexivity|]. split; [reflexivity|].
      split.
      * cbn [no_failure forallb is_failure negb andb].
        fold (no_failure
                (fst (mode_and_owner_steps os
                        (os_path_abspath os (os_path_join os path ".."))
                        dmode uid gid w1)
                 ++ [Ev_log Lowinfo
                       (Creating_directory
                          (os_path_abspath os (os_path_join os path "..")))])).
        rewrite no_failure_app, Hf. reflexivity.
      * unfold handle_events in *. cbn [filter is_handle_event].
        rewrite filter_app, Hh. reflexivity.
Qed.

Lemma sync_paths_added (l : locals) (paths : list string) (success : bool)
  (s : state W) :
  exists (result : bool) (s' : state W) (added : list event),
    sync_paths os ctx l paths success s = (Ok result, s')
    /\ trace s' = (trace s ++ added)%list
    /\ result = success && no_failure added
    /\ handle_events added = [].
Proof.
  revert success s. induction paths as [|path_item rest IH]; intros success s.
  - exists success, s, []. rewrite app_nil_r, andb_true_r.
    repeat split; reflexivity.
  - destruct (sync_added path_item (v_destination l) (v_dmode l) (v_fmode l)
                (v_owner l) (v_group l) (v_rsync l) (v_options l)
                (v_stdout l) (v_stderr l) s)
      as (b & s1 & a1 & Hsync & Ht1 & Hb & Hh1).
    destruct (IH (success && b) s1) as (r & s2 & a2 & Hrest & Ht2 & Hr & Hh2).
    exists r, s2, (a1 ++ a2)%list. unfold sync_paths in *.
    cbn [for_each].
    erewrite bind_ok by (rewrite (bind_ok Hsync); reflexivity).
    split; [exact Hrest|]. split; [|split].
    + rewrite Ht2, Ht1, app_assoc. reflexivity.
    + rewrite Hr, Hb, no_failure_app, andb_assoc. reflexivity.
    + rewrite handle_events_app, Hh1, Hh2. reflexivity.
Qed.

Lemma resolve_added (destination : string) (source : source_spec)
  (s s' : state W) (l : locals) :
  resolve os ctx destination source s = (Ok l, s') ->
  world s' = world s
  /\ trace s' = (trace s ++ opened (v_stdout l) ++ opened (v_stderr l))%list.
Proof.
  unfold resolve, expand_path, unpack_one, open_devnull.
  unfold bind, ret, or_raise, raise, emit. cbn [negb].
  destruct (IS_WINDOWS os); cbn [negb];
    [destruct (os_getlogin os) as [login|]
    |destruct (current_pw_name os) as [pw|];
     [destruct (current_gr_name os) as [gr|]|]];
    try (intros [=]; fail);
    (destruct source as [p|r];
     [|destruct (k_path r) as [p|]; [|intros [=]];
       destruct (dict_get (k_stdout r)
                   (dict_get (k_stdout (defaults ctx)) true));
       destruct (dict_get (k_stderr r)
                   (dict_get (k_stderr (defaults ctx)) true))]);
    cbn [negb fst snd]; intros [= <- <-];
    cbn [v_stdout v_stderr world trace opened app];
    rewrite <- ?app_assoc, ?app_nil_r; split; reflexivity.
Qed.

Lemma resolve_ids_state (owner group : option string) (s s' : state W)
  (r : outcome (Z * Z)) :
  resolve_ids os owner group s = (r, s') -> s' = s.
Proof.
  unfold resolve_ids, bind, ret, or_raise, raise.
  destruct (IS_WINDOWS os); cbn [negb]; [intros [= _ <-]; reflexivity|].
  destruct (truthy owner);
    [destruct (pwd_getpwnam os (dict_get owner ""))|];
    (destruct (truthy group);
     [destruct (grp_getgrnam os (dict_get group ""))|]);
    intros [= _ <-]; reflexivity.
Qed.

Lemma create_parent_added (l : locals) (uid gid : Z) (success result : bool)
  (s s' : state W) :
  create_parent os l uid gid success s = (Ok result, s') ->
  exists added : list event,
    trace s' = (trace s ++ added)%list
    /\ result = success && no_failure added
    /\ handle_events added = [].
Proof.
  unfold create_parent, octal_mode.
  destruct (v_create l).
  - destruct (PyInt.int_base8 (PyInt.str (v_dmode l))) as [mode|];
      cbn [or_raise]; [|intros [=]].
    unfold bind at 1. cbn [ret].
    destruct (create_added (v_destination l) mode uid gid s)
      as (b & s1 & added & Hrun & Ht & Hb & Hh).
    rewrite (bind_ok Hrun). intros [= <- <-].
    exists added. rewrite Hb. repeat split; assumption.
  - intros [= <- <-]. exists []. rewrite app_nil_r, andb_true_r.
    repeat split; reflexivity.
Qed.

Lemma close_stream_added (handle : stream) (s : state W) :
  close_stream handle s
  = (Ok tt, {| world := world s; trace := trace s ++ closing handle |}%list).
Proof.
  unfold close_stream, open_devnull, bind, emit, ret, closing.
  destruct handle; cbn; rewrite <- ?app_assoc; reflexivity.
Qed.

(** One iteration of the loop, when it returns: what it adds to the
    trace, what it returns, and what it does to the null device. *)
Lemma process_record_added (record : string * source_spec)
  (success result : bool) (s s' : state W) :
  process_record os ctx record success s = (Ok result, s') ->
  exists (l : locals) (added : list event),
    trace s' = (trace s ++ added)%list
    /\ result = success && no_failure added
    /\ handle_events added
       = (opened (v_stdout l) ++ opened (v_stderr l)
          ++ closing (v_stdout l) ++ closing (v_stderr l))%list.
Proof.
  unfold process_record. unfold bind at 1.
  destruct (resolve os ctx (fst record) (snd record) s) as [[l|e] s1]
    eqn:Hl; [|intros [=]].
  apply resolve_added in Hl. destruct Hl as [_ Ht1].
  unfold bind at 1.
  destruct (resolve_ids os (v_owner l) (v_group l) s1) as [[ids|e] s2]
    eqn:Hids; [|intros [=]].
  apply resolve_ids_state in Hids. subst s2.
  unfold bind at 1.
  destruct (create_parent os l (fst ids) (snd ids) success s1)
    as [[b1|e] s3] eqn:Hc; [|intros [=]].
  apply create_parent_added in Hc. destruct Hc as (a3 & Ht3 & Hb1 & Hh3).
  unfold bind at 1. unfold expand_path at 1. unfold read_world at 1.
  unfold bind at 1.
  set (paths := glob os (world s3) _).
  set (note := if (1 <? List.length paths)%nat
               then [Ev_log Lowinfo
                       (Synchronizing_expression (v_paths_expression l)
                          (v_destination l))]
               else []).
  assert (Hnote :
    (if (1 <? List.length paths)%nat
     then log Lowinfo
            (Synchronizing_expression (v_paths_expression l)
               (v_destination l))
     else ret tt) s3
    = (Ok tt, {| world := world s3; trace := trace s3 ++ note |}%list)).
  { unfold note. destruct (1 <? List.length paths)%nat.
    - reflexivity.
    - rewrite app_nil_r. destruct s3; reflexivity. }
  rewrite Hnote. clear Hnote.
  destruct (sync_paths_added l paths b1
              {| world := world s3; trace := (trace s3 ++ note)%list |})
    as (b2 & s5 & a5 & Hsync & Ht5 & Hb2 & Hh5).
  rewrite (bind_ok Hsync).
  rewrite (bind_ok (close_stream_added (v_stdout l) s5)).
  rewrite (bind_ok (close_stream_added (v_stderr l) _)).
  cbn [ret world trace]. intros [= <- <-]. cbn [trace] in *.
  exists l,
    ((opened (v_stdout l) ++ opened (v_stderr l))
       ++ a3 ++ note ++ a5
       ++ closing (v_stdout l) ++ closing (v_stderr l))%list.
  assert (Hnote_ok : no_failure note = true /\ handle_events note = []).
  { unfold note. destruct (1 <? List.length paths)%nat; split; reflexivity. }
  destruct Hnote_ok as [Hn1 Hn2].
  split; [|split].
  - rewrite Ht5, Ht3, Ht1. rewrite <- !app_assoc. reflexivity.
  - rewrite Hb2, Hb1. rewrite !no_failure_app, Hn1.
    assert (Ho : forall h, no_failure (opened h) = true)
      by (intros []; reflexivity).
    assert (Hcl : forall h, no_failure (closing h) = true)
      by (intros []; reflexivity).
    rewrite !Ho, !Hcl. cbn [andb]. rewrite !andb_true_r.
    rewrite andb_assoc. reflexivity.
  - rewrite !handle_events_app, Hh3, Hn2, Hh5. cbn [app].
    assert (Ho : forall h, handle_events (opened h) = opened h)
      by (intros []; reflexivity).
    assert (Hcl : forall h, handle_events (closing h) = closing h)
      by (intros []; reflexivity).
    rewrite !Ho, !Hcl, <- !app_assoc. reflexivity.
Qed.

Lemma count_app (p : event -> bool) (a b : list event) :
  count p (a ++ b) = (count p a + count p b)%nat.
Proof. unfold count. rewrite filter_app, length_app. reflexivity. Qed.

Lemma count_handle_events (p : event -> bool) (t : list event) :
  (forall e : event, p e = true -> is_handle_event e = true) ->
  count p (handle_events t) = count p t.
Proof.
  intros Hp. unfold count, handle_events.
  induction t as [|e t IH]; [reflexivity|]. cbn [filter].
  destruct (is_handle_event e) eqn:He; cbn [filter].
  - destruct (p e); cbn [List.length]; rewrite IH; reflexivity.
  - destruct (p e) eqn:Hpe; [|exact IH].
    rewrite (Hp e Hpe) in He. discriminate He.
Qed.

Lemma records_added (records : list (string * source_spec))
  (success result : bool) (s s' : state W) :
  for_each records (process_record os ctx) success s = (Ok result, s') ->
  exists added : list event,
    trace s' = (trace s ++ added)%list
    /\ result = success && no_failure added
    /\ count (is_open "w") added = count is_close added
    /\ count (is_open "r") added = (2 * List.length records)%nat.
Proof.
  revert success s. induction records as [|record rest IH]; intros success s.
  - intros [= <- <-]. exists []. rewrite app_nil_r, andb_true_r.
    repeat split; reflexivity.
  - cbn [for_each]. unfold bind at 1.
    destruct (process_record os ctx record success s) as [[b1|e] s1] eqn:Hr;
      [|intros [=]].
    apply process_record_added in Hr.
    destruct Hr as (l & a1 & Ht1 & Hb1 & Hh1).
    intros Hrest. apply IH in Hrest.
    destruct Hrest as (a2 & Ht2 & Hb2 & Hw2 & Hr2).
    exists (a1 ++ a2)%list. split; [|split; [|split]].
    + rewrite Ht2, Ht1, app_assoc. reflexivity.
    + rewrite Hb2, Hb1, no_failure_app, andb_assoc. reflexivity.
    + rewrite !count_app, Hw2. f_equal.
      rewrite <- (count_handle_events (is_open "w") a1),
              <- (count_handle_events is_close a1), Hh1.
      * destruct (v_stdout l), (v_stderr l); reflexivity.
      * intros []; cbn; congruence.
      * intros []; cbn; congruence.
    + rewrite count_app, Hr2.
      rewrite <- (count_handle_events (is_open "r") a1), Hh1.
      * assert (Htwo :
          count (is_open "r")
            (opened (v_stdout l) ++ opened (v_stderr l)
             ++ closing (v_stdout l) ++ closing (v_stderr l)) = 2%nat)
          by (destruct (v_stdout l), (v_stderr l); reflexivity).
        rewrite Htwo. cbn [List.length]. lia.
      * intros []; cbn; congruence.
Qed.

(** X6: when the record processor returns, what it returns can be read
    off its log: true exactly when no directory creation and no sync
    operation reported a failure (warnings of chmod and chown do not
    count), and the last line is the info line on true and the error line
    on false. *)
Theorem run_result_reads_off_the_log (records : list (string * source_spec))
  (result : bool) (s s' : state W)
  (Hrun : _process_records os ctx records s = (Ok result, s')) :
  exists added : list event,
    trace s'
    = (trace s ++ added
       ++ [if result then Ev_log Info All_synchronizations_done
           else Ev_log Error Some_synchronizations_failed])%list
    /\ result = no_failure added.
Proof.
  unfold _process_records in Hrun. unfold bind at 1 in Hrun.
  destruct (for_each records (process_record os ctx) true s)
    as [[b|e] s1] eqn:Hloop; [|discriminate Hrun].
  apply records_added in Hloop. destruct Hloop as (added & Ht & Hb & _ & _).
  exists added. cbn [andb] in Hb.
  destruct b; unfold bind, log, emit, ret in Hrun; cbn in Hrun;
    injection Hrun as <- <-; cbn [trace]; rewrite Ht, <- app_assoc;
    split; [reflexivity | exact Hb | reflexivity | exact Hb].
Qed.


(** X8: a source expression that matches nothing is no error: when
    [create] is not set, the record runs no tool, creates nothing, and
    leaves the success flag as it found it. *)
Theorem record_without_match_is_skipped (record : string * source_spec)
  (success : bool) (s s1 : state W) (l : locals) (ids : Z * Z)
  (Hresolve : resolve os ctx (fst record) (snd record) s = (Ok l, s1))
  (Hids : resolve_ids os (v_owner l) (v_group l) s1 = (Ok ids, s1))
  (Hcreate : v_create l = false)
  (Hnone :
     glob os (world s1)
       (os_path_expandvars os
          (os_path_expanduser os (v_paths_expression l))) = []) :
  let s' :=
    {| world := world s1;
       trace := (trace s1 ++ closing (v_stdout l)
                 ++ closing (v_stderr l))%list |} in
  process_record os ctx record success s = (Ok success, s')
  /\ runs (trace s') = runs (trace s)
  /\ mkdirs (trace s') = mkdirs (trace s).
Proof.
  cbv zeta. split.
  - unfold process_record.
    rewrite (bind_ok Hresolve), (bind_ok Hids).
    unfold create_parent. rewrite Hcreate.
    unfold bind at 1. cbn [ret].
    unfold bind at 1. unfold expand_path at 1. unfold read_world at 1.
    rewrite Hnone. cbn [List.length Nat.ltb Nat.leb].
    unfold bind at 1. cbn [ret].
    unfold sync_paths. cbn [for_each]. unfold bind at 1. cbn [ret].
    rewrite (bind_ok (close_stream_added (v_stdout l) s1)).
    rewrite (bind_ok (close_stream_added (v_stderr l) _)).
    cbn [ret world trace]. rewrite <- app_assoc. reflexivity.
  - pose proof (@resolve_outcome W os ctx _ _ _ _ _ Hresolve) as H.
    cbv zeta in H.
    destruct H as (_ & _ & Hruns & Hmk & _).
    cbn [trace]. unfold mkdirs in *. rewrite runs_app, filter_app.
    rewrite Hruns, Hmk.
    split; destruct (v_stdout l), (v_stderr l); cbn;
      rewrite app_nil_r; reflexivity.
Qed.

(** X9: an extended specification without the key [path] makes the record
    processor raise [KeyError('path')] as soon as the record is reached:
    nothing is opened, created or run for it, and the records after it are
    not processed. *)
Theorem missing_path_key_aborts_run
  (before after : list (string * source_spec)) (destination : string)
  (source : config_dict) (s s1 : state W) (success : bool)
  (Hbefore :
     for_each before (process_record os ctx) true s = (Ok success, s1))
  (Hpath : k_path source = None)
  (Hnames :
     if IS_WINDOWS os then os_getlogin os <> None
     else current_pw_name os <> None /\ current_gr_name os <> None) :
  _process_records os ctx
    (before ++ (destination, Extended source) :: after) s
  = (Raise (KeyError "path"), s1).
Proof.
  unfold _process_records. apply bind_raise. rewrite for_each_app.
  rewrite (bind_ok Hbefore). cbn [for_each]. apply bind_raise.
  unfold process_record. apply bind_raise. cbn [fst snd].
  unfold resolve, expand_path, unpack_one, bind, ret, or_raise, raise.
  destruct (IS_WINDOWS os); cbn [negb].
  - destruct (os_getlogin os); [|contradiction Hnames; reflexivity].
    rewrite Hpath. reflexivity.
  - destruct Hnames as [Hpw Hgr].
    destruct (current_pw_name os); [|contradiction Hpw; reflexivity].
    destruct (current_gr_name os); [|contradiction Hgr; reflexivity].
    rewrite Hpath. reflexivity.
Qed.





End Runs.

(** ** The further properties on the small system *)

Lemma run_result_reads_off_the_log_witness :
  exists added : list event,
    trace (snd (_process_records Demo.posix Demo.plain Demo.two_records
                  Demo.start))
    = (trace Demo.start ++ added
       ++ [Ev_log Error Some_synchronizations_failed])%list
    /\ false = no_failure added.
Proof.
  apply (@run_result_reads_off_the_log Demo.fs Demo.posix Demo.plain
           Demo.two_records false Demo.start
           (snd (_process_records Demo.posix Demo.plain Demo.two_records
                   Demo.start))).
  reflexivity.
Defined.


Lemma record_without_match_is_skipped_witness :
  process_record Demo.posix Demo.plain ("~/x", Bare "nothing-here") true
    Demo.start
  = (Ok true,
     {| world := Demo.disk;
        trace := [Ev_open_devnull "r"; Ev_open_devnull "r"] |}).
Proof.
  apply (@record_without_match_is_skipped Demo.fs Demo.posix Demo.plain
           ("~/x", Bare "nothing-here") true Demo.start Demo.start
           Demo.unmatched_locals (1000, 50));
    reflexivity.
Defined.

Lemma missing_path_key_aborts_run_witness :
  _process_records Demo.posix Demo.plain
    ([] ++ ("~/.vim", Extended empty_dict)
        :: [("~/.bashrc", Bare "bashrc")])
    Demo.start
  = (Raise (KeyError "path"), Demo.start).
Proof.
  apply (@missing_path_key_aborts_run Demo.fs Demo.posix Demo.plain []
           [("~/.bashrc", Bare "bashrc")] "~/.vim" empty_dict Demo.start
           Demo.start true).
  - reflexivity.
  - reflexivity.
  - split; discriminate.
Defined.


(** ** Configuration, order of the runs, and Windows *)

Section Composition.

Variable W : Type.
Variable os : OS W.
Variable ctx : context.

Lemma sync_run_and_world (source destination : string) (dmode fmode : Z)
  (owner group : option string) (rsync : string) (options : list string)
  (stdout stderr : stream) (s : state W) :
  let cmd := command_line os ctx (world s) source destination dmode fmode
               owner group rsync options in
  exists (success : bool) (s' : state W),
    _sync os ctx source destination dmode fmode owner group rsync options
      stdout stderr s = (Ok success, s')
    /\ runs (trace s')
       = (runs (trace s)
          ++ [Ev_run cmd (base_directory ctx) stdout stderr])%list
    /\ world s'
       = snd (subprocess_run os cmd stdout stderr (base_directory ctx)
                (world s)).
Proof.
  cbv zeta. rewrite sync_outcome. cbv zeta.
  destruct (subprocess_run os _ stdout stderr (base_directory ctx) (world s))
    as [[e|returncode] w'];
    [|destruct (returncode =? 0)];
    eexists _, _; (split; [reflexivity|]);
    cbn [trace world snd]; rewrite runs_app; split; reflexivity.
Qed.

(** X12: the matched paths of a record are synced in the order of the
    expansion, one run each: the runs that the loop adds to the trace are
    exactly the command lines of the paths, in order, each built in the
    file system that the run before it left, and the loop ends in the file
    system that the last run left. *)
Theorem sync_paths_runs_in_order (l : locals) (paths : list string)
  (success : bool) (s : state W) :
  exists (result : bool) (s' : state W),
    sync_paths os ctx l paths success s = (Ok result, s')
    /\ runs (trace s')
       = (runs (trace s) ++ fst (runs_from os ctx l paths (world s)))%list
    /\ world s' = snd (runs_from os ctx l paths (world s)).
Proof.
  revert success s. induction paths as [|path_item rest IH]; intros success s.
  - exists success, s. cbn [runs_from fst snd]. rewrite app_nil_r.
    repeat split; reflexivity.
  - destruct (sync_run_and_world path_item (v_destination l) (v_dmode l)
                (v_fmode l) (v_owner l) (v_group l) (v_rsync l) (v_options l)
                (v_stdout l) (v_stderr l) s)
      as (b & s1 & Hsync & Hruns & Hworld).
    destruct (IH (success && b) s1) as (r & s2 & Hrest & Hran & Hend).
    exists r, s2. unfold sync_paths in *. cbn [for_each].
    erewrite bind_ok by (rewrite (bind_ok Hsync); reflexivity).
    split; [exact Hrest|].
    cbn [runs_from]. rewrite <- Hworld.
    destruct (runs_from os ctx l rest (world s1)) as [later w''].
    cbn [fst snd] in *. split; [|exact Hend].
    rewrite Hran, Hruns, <- app_assoc. reflexivity.
Qed.

(** X13: the configuration that a record is processed with: [create],
    [rsync], [options], [fmode], [dmode], [owner] and [group] are the
    record's value when the record sets the key, else the value of the
    defaults, else the built-in one (the current user and group for owner
    and group, the login name and no group on Windows); an extended record
    is quiet on a stream when its own key, else the default, is false; a
    bare record always inherits both streams, whatever the defaults. *)
Theorem effective_configuration_layers (destination : string)
  (source : source_spec) (s s' : state W) (l : locals)
  (Hresolve : resolve os ctx destination source s = (Ok l, s')) :
  let d := defaults ctx in
  let r := record_dict source in
  let default_owner :=
    if IS_WINDOWS os then os_getlogin os else current_pw_name os in
  let default_group :=
    if IS_WINDOWS os then None else current_gr_name os in
  v_create l = dict_get (k_create r) (dict_get (k_create d) false)
  /\ v_rsync l = dict_get (k_rsync r) (dict_get (k_rsync d) "rsync")
  /\ v_options l
     = dict_get (k_options r)
         (dict_get (k_options d) ["--delete"; "--safe-links"])
  /\ v_fmode l = dict_get (k_fmode r) (dict_get (k_fmode d) 644)
  /\ v_dmode l = dict_get (k_dmode r) (dict_get (k_dmode d) 755)
  /\ v_owner l = dict_get (k_owner r) (dict_get (k_owner d) default_owner)
  /\ v_group l = dict_get (k_group r) (dict_get (k_group d) default_group)
  /\ match source with
     | Extended r =>
         k_path r = Some (v_paths_expression l)
         /\ v_stdout l
            = (if dict_get (k_stdout r) (dict_get (k_stdout d) true)
               then Inherit else DevNull)
         /\ v_stderr l
            = (if dict_get (k_stderr r) (dict_get (k_stderr d) true)
               then Inherit else DevNull)
     | Bare paths_expression =>
         v_paths_expression l = paths_expression
         /\ v_stdout l = Inherit
         /\ v_stderr l = Inherit
     end.
Proof.
  pose proof (@resolve_outcome W os ctx _ _ _ _ _ Hresolve) as H.
  cbv zeta in H |- *.
  destruct H as (_ & _ & _ & _ & Hc & Hr & Ho & Hf & Hd & Hnames & Hstreams).
  destruct Hnames as (o & g & Hplatform & _ & Hown & Hgrp).
  assert (Hr' : record_dict source
                = match source with Extended r => r | Bare _ => empty_dict end)
    by reflexivity.
  rewrite Hr'. repeat (split; [assumption|]).
  destruct (IS_WINDOWS os); destruct Hplatform as [-> ->];
    repeat (split; [assumption|]); exact Hstreams.
Qed.

(** X14: on Windows a record for which neither the record nor the
    defaults configure a group has no group, and every run of the tool for
    it gets the vector made of the tool name unless empty, the four fixed
    flags, the chmod flag, the options and the two paths: the plugin puts
    no chown flag in it. *)
Theorem windows_default_has_no_chown_flag (destination : string)
  (source : source_spec) (s s' : state W) (l : locals)
  (Hwindows : IS_WINDOWS os = true)
  (Hresolve : resolve os ctx destination source s = (Ok l, s'))
  (Hrecord : k_group (record_dict source) = None)
  (Hdefault : k_group (defaults ctx) = None) :
  v_group l = None
  /\ forall (path_item : string) (s0 : state W),
       exists (success : bool) (w' : W) (line : event),
         _sync os ctx path_item (v_destination l) (v_dmode l) (v_fmode l)
           (v_owner l) (v_group l) (v_rsync l) (v_options l) (v_stdout l)
           (v_stderr l) s0
         = (Ok success,
            {| world := w';
               trace :=
                 trace s0 ++
                 [Ev_run
                    (tool_slot (v_rsync l)
                       ++ ["--update"; "--recursive"; "--owner"; "--group";
                           chmod_flag (v_dmode l) (v_fmode l)]
                       ++ v_options l
                       ++ [normalized_source os ctx (world s0) path_item;
                           normalized_destination os (v_destination l)])
                    (base_directory ctx) (v_stdout l) (v_stderr l);
                  line] |})%list.
Proof.
  pose proof (@resolve_outcome W os ctx _ _ _ _ _ Hresolve) as H.
  cbv zeta in H.
  destruct H as (_ & _ & _ & _ & _ & _ & _ & _ & _ & Hnames & _).
  destruct Hnames as (o & g & Hplatform & _ & _ & Hgrp).
  rewrite Hwindows in Hplatform. destruct Hplatform as [_ ->].
  assert (Hg : v_group l = None).
  { rewrite Hgrp. unfold record_dict in Hrecord.
    rewrite Hrecord, Hdefault. reflexivity. }
  split; [exact Hg|]. intros path_item s0.
  rewrite sync_outcome. cbv zeta. unfold command_line, tool_slot.
  rewrite Hg.
  assert (Hflags :
    filter Str.nonempty
      (sync_flags (v_dmode l) (v_fmode l) (v_owner l) None (v_rsync l))
    = ((if Str.nonempty (v_rsync l) then [v_rsync l] else [])
       ++ ["--update"; "--recursive"; "--owner"; "--group";
           chmod_flag (v_dmode l) (v_fmode l)])%list).
  { unfold sync_flags, chmod_flag, truthy. cbn [filter].
    rewrite andb_false_r. destruct (Str.nonempty (v_rsync l)); reflexivity. }
  rewrite Hflags, <- !app_assoc.
  destruct (subprocess_run os _ (v_stdout l) (v_stderr l)
              (base_directory ctx) (world s0)) as [[e|returncode] w'];
    [|destruct (returncode =? 0)]; eexists _, _, _; reflexivity.
Qed.

Lemma mem_char_app (c : ascii) (a b : string) :
  Str.mem_char c (a ++ b) = Str.mem_char c a || Str.mem_char c b.
Proof.
  induction a as [|x t IH]; simpl; [reflexivity|].
  rewrite IH, orb_assoc. reflexivity.
Qed.

Lemma fix_path_no_backslash (path : string) :
  Str.mem_char Str.backslash (_fix_windows_path_for_cwrsync true path)
  = false.
Proof.
  destruct (fix_path_result path) as [[-> _]|(d & rest & -> & Hd & Hrest)].
  - apply replace_char_removes. reflexivity.
  - simpl. rewrite (lower_letter_not_backslash _ Hd), Hrest. reflexivity.
Qed.

(** X15: on Windows the source and the destination that the tool receives
    hold no backslash, whatever the paths of the host look like. *)
Theorem windows_tool_paths_have_no_backslash (source destination : string)
  (dmode fmode : Z) (owner group : option string) (rsync : string)
  (options : list string) (stdout stderr : stream) (s : state W)
  (Hwindows : IS_WINDOWS os = true) :
  exists (success : bool) (s' : state W) (front : list string)
         (src dst : string) (line : event),
    _sync os ctx source destination dmode fmode owner group rsync options
      stdout stderr s = (Ok success, s')
    /\ trace s'
       = (trace s ++
          [Ev_run (front ++ [src; dst]) (base_directory ctx) stdout stderr;
           line])%list
    /\ Str.mem_char Str.backslash src = false
    /\ Str.mem_char Str.backslash dst = false.
Proof.
  rewrite sync_outcome. cbv zeta. unfold command_line.
  rewrite app_assoc.
  assert (Hsrc : Str.mem_char Str.backslash
                   (normalized_source os ctx (world s) source) = false).
  { unfold normalized_source. rewrite Hwindows.
    destruct (os_path_isdir os (world s) _);
      [destruct (Str.endswith_char _ Str.slash)|];
      rewrite ?mem_char_app, fix_path_no_backslash; reflexivity. }
  assert (Hdst : Str.mem_char Str.backslash
                   (normalized_destination os destination) = false).
  { unfold normalized_destination. rewrite Hwindows.
    apply fix_path_no_backslash. }
  destruct (subprocess_run os _ stdout stderr (base_directory ctx) (world s))
    as [[e|returncode] w'];
    [|destruct (returncode =? 0)];
    eexists _, _, _, _, _, _;
    (split; [reflexivity|]); (split; [reflexivity|]);
    (split; [exact Hsrc | exact Hdst]).
Qed.

End Composition.

Lemma effective_configuration_layers_witness :
  v_fmode Demo.private_bashrc_locals = 600
  /\ v_dmode Demo.private_bashrc_locals = 755
  /\ v_stdout Demo.private_bashrc_locals = DevNull.
Proof.
  pose proof (@effective_configuration_layers Demo.fs Demo.posix Demo.quiet
                "~/.bashrc" (Extended Demo.private_bashrc) Demo.start
                {| world := Demo.disk; trace := [Ev_open_devnull "w"] |}
                Demo.private_bashrc_locals eq_refl) as H.
  cbv zeta in H.
  destruct H as (_ & _ & _ & Hf & Hd & _ & _ & _ & Hout & _).
  split; [exact Hf|]. split; [exact Hd | exact Hout].
Defined.

Lemma windows_default_has_no_chown_flag_witness :
  v_group Demo.windows_locals = None
  /\ forall (path_item : string) (s0 : state Demo.fs),
       exists (success : bool) (w' : Demo.fs) (line : event),
         _sync Demo.windows Demo.windows_plain path_item
           "C:\Users\alice\vimfiles" 755 644 (Some "alice") None "rsync"
           ["--delete"; "--safe-links"] Inherit Inherit s0
         = (Ok success,
            {| world := w';
               trace :=
                 trace s0 ++
                 [Ev_run
                    (["rsync"; "--update"; "--recursive"; "--owner";
                      "--group"; "--chmod=D755,F644"; "--delete";
                      "--safe-links";
                      normalized_source Demo.windows Demo.windows_plain
                        (world s0) path_item;
                      "/cygdrive/c/Users/alice/vimfiles"])
                    "C:\repo" Inherit Inherit;
                  line] |})%list.
Proof.
  apply (@windows_default_has_no_chown_flag Demo.fs Demo.windows
           Demo.windows_plain "~\vimfiles" (Bare "vim") Demo.windows_start
           Demo.windows_start Demo.windows_locals);
    reflexivity.
Defined.

Lemma windows_tool_paths_have_no_backslash_witness :
  exists (success : bool) (s' : state Demo.fs) (front : list string)
         (src dst : string) (line : event),
    _sync Demo.windows Demo.windows_plain "vim" "~\vimfiles" 755 644
      (Some "alice") None "rsync" ["--delete"] Inherit Inherit
      Demo.windows_start = (Ok success, s')
    /\ trace s'
       = [Ev_run (front ++ [src; dst]) "C:\repo" Inherit Inherit; line]
    /\ Str.mem_char Str.backslash src = false
    /\ Str.mem_char Str.backslash dst = false.
Proof.
  apply (@windows_tool_paths_have_no_backslash Demo.fs Demo.windows
           Demo.windows_plain "vim" "~\vimfiles" 755 644 (Some "alice") None
           "rsync" ["--delete"] Inherit Inherit Demo.windows_start).
  reflexivity.
Defined.
